(** * SCADA-LTS MCP server: a shallow embedding of [scada_lts_mcp.py]

    The module has two parts: the class [ScadaLTSClient] (one asynchronous
    method per REST capability of the SCADA system) and the two dispatchers
    registered with the MCP server, [call_tool] and [get_prompt], which share
    the module-level variable [scada_client].

    Python values are embedded as the type [value]; code that can raise runs in
    the monad [M], which threads the observable world (the global client, the
    requests put on the wire, the log records) and keeps the world as it is at
    the moment an exception is raised, as Python does.

    Scope of the model.  JSON numbers are integers (floating point numbers are
    left out); a string is a sequence of one-byte characters.  What the Python
    runtime and the libraries compute and the module only calls (the text of
    [json.dumps], [repr] of a container, [str] of an exception, [int] of a
    string, and the answers of the remote system) are the fields of a
    [Platform], a variable of every section below: the theorems hold whatever
    they are. *)

From Stdlib Require Import ZArith List String Ascii Bool Lia DecimalString.
Import ListNotations.
Set Warnings "-register-all".
Open Scope Z_scope.
Open Scope string_scope.

(** ** Python values *)

Inductive value : Type :=
| VNone
| VBool (b : bool)
| VInt (n : Z)
| VStr (s : string)
| VList (l : list value)
| VDict (d : list (string * value)).

(** A [Dict[str, Any]]: keys in insertion order. *)
Definition dict := list (string * value).

(** Exceptions, by class: all of them are caught by [except Exception].
    [AttributeError t a]: a value of type [t] has no attribute [a];
    [TypeError what t]: the operation [what] does not apply to the type [t];
    [ValueError l]: [int] of the string [l]; [HTTPError] stands for whatever
    the HTTP library raises: a refused connection, a timeout, a body that is
    not JSON. *)
Inductive exn : Type :=
| KeyError (key : string)
| AttributeError (type_name attr : string)
| TypeError (what type_name : string)
| ValueError (literal : string)
| HTTPError (msg : string).

Definition nl : string := String (ascii_of_nat 10) EmptyString.

(** [bool(v)]: the test of [if v:] and [not v]. *)
Definition truthy (v : value) : bool :=
  match v with
  | VNone => false
  | VBool b => b
  | VInt n => negb (n =? 0)%Z
  | VStr s => negb (String.eqb s EmptyString)
  | VList l => match l with [] => false | _ => true end
  | VDict d => match d with [] => false | _ => true end
  end.

(** [type(v).__name__] *)
Definition type_name (v : value) : string :=
  match v with
  | VNone => "NoneType"
  | VBool _ => "bool"
  | VInt _ => "int"
  | VStr _ => "str"
  | VList _ => "list"
  | VDict _ => "dict"
  end.

(** [str(n)] for an int. *)
Definition str_of_Z (n : Z) : string := NilZero.string_of_int (Z.to_int n).

Fixpoint lookup (k : string) (d : dict) : option value :=
  match d with
  | [] => None
  | (k', v) :: d' => if String.eqb k k' then Some v else lookup k d'
  end.

(** [d[k]] on a dict *)
Definition getitem (d : dict) (k : string) : exn + value :=
  match lookup k d with
  | Some v => inr v
  | None => inl (KeyError k)
  end.

(** [d.get(k, default)] on a dict *)
Definition dict_get (d : dict) (k : string) (default : value) : value :=
  match lookup k d with
  | Some v => v
  | None => default
  end.

(** [v.get(k, default)] on any value: only a dict has the method. *)
Definition py_get (v : value) (k : string) (default : value) : exn + value :=
  match v with
  | VDict d => inr (dict_get d k default)
  | _ => inl (AttributeError (type_name v) "get")
  end.

(** [len(v)] *)
Definition py_len (v : value) : exn + nat :=
  match v with
  | VStr s => inr (String.length s)
  | VList l => inr (List.length l)
  | VDict d => inr (List.length d)
  | _ => inl (TypeError "len" (type_name v))
  end.

Fixpoint chars (s : string) : list value :=
  match s with
  | EmptyString => []
  | String c s' => VStr (String c EmptyString) :: chars s'
  end.

(** [iter(v)]: what a [for] loop or a generator expression goes through. *)
Definition py_iter (v : value) : exn + list value :=
  match v with
  | VStr s => inr (chars s)
  | VList l => inr l
  | VDict d => inr (map (fun kv => VStr (fst kv)) d)
  | _ => inl (TypeError "iter" (type_name v))
  end.

(** [v == n] for an int [n]; [True == 1] and [False == 0] in Python. *)
Definition eq_int (v : value) (n : Z) : bool :=
  match v with
  | VInt m => (m =? n)%Z
  | VBool b => ((if b then 1 else 0) =? n)%Z
  | _ => false
  end.

(** [str.rstrip(c)] for a one-character [c]: drops every trailing [c]. *)
Fixpoint rstrip (c : ascii) (s : string) : string :=
  match s with
  | EmptyString => EmptyString
  | String a s' =>
      match rstrip c s' with
      | EmptyString => if Ascii.eqb a c then EmptyString else String a EmptyString
      | r => String a r
      end
  end.

Definition to_lower (c : ascii) : ascii :=
  let n := nat_of_ascii c in
  if (Nat.leb 65 n && Nat.leb n 90)%bool then ascii_of_nat (n + 32) else c.

(** [str.lower()], on the letters A to Z: no other character lowers to a
    letter of "true", the one string the result is compared with. *)
Fixpoint lower (s : string) : string :=
  match s with
  | EmptyString => EmptyString
  | String c s' => String (to_lower c) (lower s')
  end.

(** Keys of a Python dict are hashable: a list or a dict is not. *)
Definition hashable (v : value) : bool :=
  match v with
  | VList _ | VDict _ => false
  | _ => true
  end.

(** Equality of two hashable keys; [1] and [True] are one key. *)
Definition key_eqb (a b : value) : bool :=
  match a, b with
  | VNone, VNone => true
  | VStr s, VStr t => String.eqb s t
  | VInt n, _ => eq_int b n
  | VBool x, _ => eq_int b (if x then 1 else 0)
  | _, _ => false
  end.

(** [d[k] = v] on a dict with arbitrary hashable keys: an equal key keeps its
    place (and its first spelling), a new key goes last. *)
Fixpoint setitem (d : list (value * value)) (k v : value) : list (value * value) :=
  match d with
  | [] => [(k, v)]
  | (k', v') :: d' => if key_eqb k' k then (k', v) :: d' else (k', v') :: setitem d' k v
  end.

(** ** HTTP: requests, responses, the remote system *)

Inductive http_method : Type := GET | POST.

(** One call of [self.client.get] or [self.client.post].  [headers] is the
    [headers=] argument ([None] when the call passes none), [json_body] the
    [json=] argument. *)
Record Request : Type := mkRequest {
  method : http_method;
  url : string;
  headers : option (list (string * string));
  json_body : option value
}.

(** [response.status_code] and [response.json()], which raises when the body
    is not JSON. *)
Record Response : Type := mkResponse {
  status_code : Z;
  json : exn + value
}.

Inductive Outcome : Type :=
| Fails (e : exn)
| Responds (r : Response).

(** What the module calls and does not define.  [remote] answers a request
    given the requests sent before it. *)
Record Platform : Type := mkPlatform {
  remote : list Request -> Request -> Outcome;
  json_dumps : value -> string;
  json_dumps_mapping : list (value * value) -> string;
  py_repr : value -> string;
  exn_str : exn -> string;
  int_of_str : string -> option Z
}.

(** ** The client object and the world *)

(** A [ScadaLTSClient] object.  [instance] is the identity of the object: the
    number of clients constructed before it.  [base_url] is a [str] (the
    constructor raises on anything else); the credentials and the token are
    whatever the caller and the remote system supplied. *)
Record ScadaLTSClient : Type := mkClient {
  instance : nat;
  base_url : string;
  username : value;
  password : value;
  session_token : value
}.

Inductive level : Type := WARNING | ERROR.

Record World : Type := mkWorld {
  scada_client : option ScadaLTSClient;
  wire : list Request;
  logged : list (level * string);
  allocated : nat
}.

(** The module as loaded: [scada_client = None], nothing sent. *)
Definition initial : World := mkWorld None [] [] 0.

(** ** The monad of code that may raise *)

Inductive Result (A : Type) : Type :=
| Return (a : A)
| Raise (e : exn).
Arguments Return {A} a.
Arguments Raise {A} e.

Definition M (A : Type) : Type := World -> Result A * World.

Definition ret {A} (a : A) : M A := fun w => (Return a, w).

Definition raise {A} (e : exn) : M A := fun w => (Raise e, w).

Definition bind {A B} (m : M A) (k : A -> M B) : M B :=
  fun w => match m w with
           | (Return a, w') => k a w'
           | (Raise e, w') => (Raise e, w')
           end.

(** [try: body  except Exception as e: handler] *)
Definition try_except {A} (body : M A) (handler : exn -> M A) : M A :=
  fun w => match body w with
           | (Return a, w') => (Return a, w')
           | (Raise e, w') => handler e w'
           end.

Definition lift {A} (r : exn + A) : M A :=
  match r with
  | inl e => raise e
  | inr a => ret a
  end.

Declare Scope monad_scope.
Delimit Scope monad_scope with monad.
Notation "x <- m ;; k" := (bind m (fun x => k))
  (at level 61, m at next level, right associativity) : monad_scope.
Notation "m ;; k" := (bind m (fun _ => k))
  (at level 61, right associativity) : monad_scope.
Open Scope monad_scope.

Definition log (l : level) (msg : string) : M unit :=
  fun w => (Return tt,
            mkWorld (scada_client w) (wire w) (logged w ++ [(l, msg)])%list (allocated w)).

(** [global scada_client; scada_client = c] *)
Definition set_scada_client (c : ScadaLTSClient) : M unit :=
  fun w => (Return tt, mkWorld (Some c) (wire w) (logged w) (allocated w)).

(** [self.session_token = tok].  The only object the program can reach is the
    one [scada_client] refers to; a write to another object is unobservable. *)
Definition set_session_token (self : ScadaLTSClient) (tok : value) : M unit :=
  fun w =>
    match scada_client w with
    | Some c =>
        if Nat.eqb (instance c) (instance self)
        then (Return tt,
              mkWorld (Some (mkClient (instance c) (base_url c) (username c) (password c) tok))
                      (wire w) (logged w) (allocated w))
        else (Return tt, w)
    | None => (Return tt, w)
    end.

(** ** class ScadaLTSClient *)

Section Client.

Variable P : Platform.

(** [str(v)], which is also what an f-string writes for [{v}]. *)
Definition py_str (v : value) : string :=
  match v with
  | VNone => "None"
  | VBool true => "True"
  | VBool false => "False"
  | VInt n => str_of_Z n
  | VStr s => s
  | VList _ | VDict _ => py_repr P v
  end.

(** [int(v)] *)
Definition py_int (v : value) : exn + Z :=
  match v with
  | VInt n => inr n
  | VBool b => inr (if b then 1 else 0)
  | VStr s => match int_of_str P s with
              | Some n => inr n
              | None => inl (ValueError s)
              end
  | _ => inl (TypeError "int" (type_name v))
  end.

(** [v.lower()] *)
Definition py_lower (v : value) : exn + string :=
  match v with
  | VStr s => inr (lower s)
  | _ => inl (AttributeError (type_name v) "lower")
  end.

(** Putting a request on the wire: it is recorded whether or not the remote
    system answers. *)
Definition send (r : Request) : M Response :=
  fun w =>
    let w' := mkWorld (scada_client w) (wire w ++ [r])%list (logged w) (allocated w) in
    match remote P (wire w) r with
    | Fails e => (Raise e, w')
    | Responds resp => (Return resp, w')
    end.

(** [__init__]: [base_url.rstrip('/')] needs a [str]; the other fields are
    stored as given and the token starts as None.  The [httpx.AsyncClient]
    of the object shows in the model as the requests it sends. *)
Definition ScadaLTSClient_init (base_url username password : value) : M ScadaLTSClient :=
  fun w =>
    match base_url with
    | VStr s =>
        (Return (mkClient (allocated w) (rstrip "/" s) username password VNone),
         mkWorld (scada_client w) (wire w) (logged w) (S (allocated w)))
    | _ => (Raise (AttributeError (type_name base_url) "rstrip"), w)
    end.

Definition authenticate (self : ScadaLTSClient) : M bool :=
  if (negb (truthy (username self)) || negb (truthy (password self)))%bool then
    log WARNING "No credentials provided, using guest access";;
    ret true
  else
    let auth_url := base_url self ++ "/api/auth/login" in
    try_except
      (response <- send (mkRequest POST auth_url None
                           (Some (VDict [("username", username self);
                                         ("password", password self)])));;
       if (status_code response =? 200)%Z then
         data <- lift (json response);;
         tok <- lift (py_get data "token" VNone);;
         set_session_token self tok;;
         ret true
       else
         log ERROR ("Authentication failed: " ++ str_of_Z (status_code response));;
         ret false)
      (fun e =>
         log ERROR ("Authentication error: " ++ exn_str P e);;
         ret false).

Definition _get_headers (self : ScadaLTSClient) : list (string * string) :=
  let headers := [("Content-Type", "application/json")] in
  if truthy (session_token self)
  then (headers ++ [("Authorization", ("Bearer " ++ py_str (session_token self))%string)])%list
  else headers.

Definition get_data_sources (self : ScadaLTSClient) : M value :=
  let url := base_url self ++ "/api/datasources" in
  try_except
    (response <- send (mkRequest GET url (Some (_get_headers self)) None);;
     if (status_code response =? 200)%Z then lift (json response)
     else ret (VList []))
    (fun e =>
       log ERROR ("Error getting data sources: " ++ exn_str P e);;
       ret (VList [])).

Definition get_data_points (self : ScadaLTSClient) (data_source_id : value) : M value :=
  let url := base_url self ++ "/api/datapoints" in
  let url := if truthy data_source_id
             then url ++ "?dataSourceId=" ++ py_str data_source_id
             else url in
  try_except
    (response <- send (mkRequest GET url (Some (_get_headers self)) None);;
     if (status_code response =? 200)%Z then lift (json response)
     else ret (VList []))
    (fun e =>
       log ERROR ("Error getting data points: " ++ exn_str P e);;
       ret (VList [])).

Definition get_point_value (self : ScadaLTSClient) (point_id : value) : M value :=
  let url := base_url self ++ "/api/point-values/" ++ py_str point_id ++ "/latest" in
  try_except
    (response <- send (mkRequest GET url (Some (_get_headers self)) None);;
     if (status_code response =? 200)%Z then lift (json response)
     else ret VNone)
    (fun e =>
       log ERROR ("Error getting point value: " ++ exn_str P e);;
       ret VNone).

Definition set_point_value (self : ScadaLTSClient) (point_id value_ : value) : M bool :=
  let url := base_url self ++ "/api/point-values/" ++ py_str point_id ++ "/set" in
  try_except
    (response <- send (mkRequest POST url (Some (_get_headers self))
                         (Some (VDict [("value", value_)])));;
     ret (status_code response =? 200)%Z)
    (fun e =>
       log ERROR ("Error setting point value: " ++ exn_str P e);;
       ret false).

Definition get_alarms (self : ScadaLTSClient) (active_only : value) : M value :=
  let url := base_url self ++ "/api/alarms" in
  let url := if truthy active_only then url ++ "?active=true" else url in
  try_except
    (response <- send (mkRequest GET url (Some (_get_headers self)) None);;
     if (status_code response =? 200)%Z then lift (json response)
     else ret (VList []))
    (fun e =>
       log ERROR ("Error getting alarms: " ++ exn_str P e);;
       ret (VList [])).

Definition acknowledge_alarm (self : ScadaLTSClient) (alarm_id : value) : M bool :=
  let url := base_url self ++ "/api/alarms/" ++ py_str alarm_id ++ "/ack" in
  try_except
    (response <- send (mkRequest POST url (Some (_get_headers self)) None);;
     ret (status_code response =? 200)%Z)
    (fun e =>
       log ERROR ("Error acknowledging alarm: " ++ exn_str P e);;
       ret false).

Definition get_system_status (self : ScadaLTSClient) : M value :=
  let url := base_url self ++ "/api/system/status" in
  try_except
    (response <- send (mkRequest GET url (Some (_get_headers self)) None);;
     if (status_code response =? 200)%Z then lift (json response)
     else ret (VDict [("status", VStr "unknown");
                      ("error", VStr ("HTTP " ++ str_of_Z (status_code response)))]))
    (fun e =>
       log ERROR ("Error getting system status: " ++ exn_str P e);;
       ret (VDict [("status", VStr "error"); ("error", VStr (exn_str P e))])).

End Client.

(** ** The dispatchers *)

Record TextContent : Type := mkTextContent {
  type : string;
  text : string
}.

(** [CallToolResult(content=[...])]: the module never passes [isError], which
    keeps its default, [False]. *)
Record CallToolResult : Type := mkCallToolResult {
  content : list TextContent;
  isError : bool
}.

Record UserMessage : Type := mkUserMessage {
  message_content : string
}.

Record GetPromptResult : Type := mkGetPromptResult {
  description : string;
  messages : list UserMessage
}.

(** [CallToolResult(content=[TextContent(type="text", text=s)])] *)
Definition text_result (s : string) : CallToolResult :=
  mkCallToolResult [mkTextContent "text" s] false.

(** [GetPromptResult(description=d, messages=[UserMessage(content=s)])] *)
Definition prompt_result (d s : string) : GetPromptResult :=
  mkGetPromptResult d [mkUserMessage s].

(** The names of [list_tools()], in order. *)
Definition list_tools : list string :=
  ["get_data_sources"; "get_data_points"; "get_point_value"; "set_point_value";
   "get_alarms"; "acknowledge_alarm"; "get_system_status"; "configure_connection"].

(** The names of [list_prompts()], in order. *)
Definition list_prompts : list string :=
  ["scada_system_overview"; "data_point_analysis"].

Definition not_configured_text : string :=
  "SCADA-LTS client not configured. Please use configure_connection tool first.".

(** Reading the global [scada_client]. *)
Definition get_scada_client : M (option ScadaLTSClient) :=
  fun w => (Return (scada_client w), w).

(** [str(len(v))] inside an f-string *)
Definition len_str (v : value) : M string :=
  n <- lift (py_len v);; ret (str_of_Z (Z.of_nat n)).

(** [next((ds for ds in data_sources if ds.get("id") == n), None)]: the
    generator stops at the first match, so later elements are not touched. *)
Fixpoint next_matching (data_sources : list value) (n : Z) : exn + value :=
  match data_sources with
  | [] => inr VNone
  | ds :: rest =>
      match py_get ds "id" VNone with
      | inl e => inl e
      | inr i => if eq_int i n then inr ds else next_matching rest n
      end
  end.

(** [point_values[point_id] = value] on a dict with keys of any type. *)
Definition store (point_values : list (value * value)) (point_id v : value)
  : exn + list (value * value) :=
  if hashable point_id then inr (setitem point_values point_id v)
  else inl (TypeError "hash" (type_name point_id)).

Section Dispatch.

Variable P : Platform.

Definition call_tool_body (name : string) (arguments : dict) : M CallToolResult :=
  if String.eqb name "configure_connection" then
    base_url <- lift (getitem arguments "base_url");;
    let username := dict_get arguments "username" (VStr EmptyString) in
    let password := dict_get arguments "password" (VStr EmptyString) in
    c <- ScadaLTSClient_init base_url username password;;
    set_scada_client c;;
    auth_success <- authenticate P c;;
    ret (text_result
           ("Connection configured for " ++ py_str P base_url ++ ". " ++
            "Authentication: " ++
            (if auth_success : bool then "successful" else "failed or guest mode")))
  else
    configured <- get_scada_client;;
    match configured with
    | None => ret (text_result not_configured_text)
    | Some client =>
        if String.eqb name "get_data_sources" then
          data_sources <- get_data_sources P client;;
          n <- len_str data_sources;;
          ret (text_result ("Found " ++ n ++ " data sources:" ++ nl ++
                            json_dumps P data_sources))
        else if String.eqb name "get_data_points" then
          let data_source_id := dict_get arguments "data_source_id" VNone in
          data_points <- get_data_points P client data_source_id;;
          let filter_text :=
            if truthy data_source_id
            then " for data source " ++ py_str P data_source_id
            else EmptyString in
          n <- len_str data_points;;
          ret (text_result ("Found " ++ n ++ " data points" ++ filter_text ++ ":" ++ nl ++
                            json_dumps P data_points))
        else if String.eqb name "get_point_value" then
          point_id <- lift (getitem arguments "point_id");;
          v <- get_point_value P client point_id;;
          match v with
          | VNone =>
              ret (text_result ("Could not retrieve value for point " ++ py_str P point_id))
          | _ =>
              ret (text_result ("Point " ++ py_str P point_id ++ " value:" ++ nl ++
                                json_dumps P v))
          end
        else if String.eqb name "set_point_value" then
          point_id <- lift (getitem arguments "point_id");;
          v <- lift (getitem arguments "value");;
          success <- set_point_value P client point_id v;;
          ret (text_result ("Setting point " ++ py_str P point_id ++ " to " ++ py_str P v ++
                            ": " ++ (if success : bool then "successful" else "failed")))
        else if String.eqb name "get_alarms" then
          let active_only := dict_get arguments "active_only" (VBool true) in
          alarms <- get_alarms P client active_only;;
          let alarm_type := if truthy active_only then "active" else "all" in
          n <- len_str alarms;;
          ret (text_result ("Found " ++ n ++ " " ++ alarm_type ++ " alarms:" ++ nl ++
                            json_dumps P alarms))
        else if String.eqb name "acknowledge_alarm" then
          alarm_id <- lift (getitem arguments "alarm_id");;
          success <- acknowledge_alarm P client alarm_id;;
          ret (text_result ("Acknowledging alarm " ++ py_str P alarm_id ++ ": " ++
                            (if success : bool then "successful" else "failed")))
        else if String.eqb name "get_system_status" then
          status <- get_system_status P client;;
          ret (text_result ("System status:" ++ nl ++ json_dumps P status))
        else
          ret (text_result ("Unknown tool: " ++ name))
    end.

(** [call_tool]: the whole body sits in [try: ... except Exception as e:]. *)
Definition call_tool (name : string) (arguments : dict) : M CallToolResult :=
  try_except (call_tool_body name arguments)
    (fun e => ret (text_result ("Error executing " ++ name ++ ": " ++ exn_str P e))).

(** The loop [for dp in data_points:] of [data_point_analysis]. *)
Fixpoint fetch_values (client : ScadaLTSClient) (data_points : list value)
    (point_values : list (value * value)) : M (list (value * value)) :=
  match data_points with
  | [] => ret point_values
  | dp :: rest =>
      point_id <- lift (py_get dp "id" VNone);;
      if truthy point_id then
        v <- get_point_value P client point_id;;
        point_values' <- lift (store point_values point_id v);;
        fetch_values client rest point_values'
      else fetch_values client rest point_values
  end.

(** [get_prompt]: no [try] here, an exception leaves the function. *)
Definition get_prompt (name : string) (arguments : dict) : M GetPromptResult :=
  configured <- get_scada_client;;
  match configured with
  | None =>
      ret (prompt_result "SCADA-LTS client not configured"
             "Please configure SCADA-LTS connection first using the configure_connection tool.")
  | Some client =>
      if String.eqb name "scada_system_overview" then
        flag <- lift (py_lower (dict_get arguments "include_alarms" (VStr "false")));;
        let include_alarms := String.eqb flag "true" in
        data_sources <- get_data_sources P client;;
        data_points <- get_data_points P client VNone;;
        system_status <- get_system_status P client;;
        n_sources <- len_str data_sources;;
        n_points <- len_str data_points;;
        let content :=
          "# SCADA-LTS System Overview" ++ nl ++ nl ++
          "## System Status" ++ nl ++ json_dumps P system_status ++ nl ++ nl ++
          "## Data Sources (" ++ n_sources ++ " total)" ++ nl ++
          json_dumps P data_sources ++ nl ++ nl ++
          "## Data Points (" ++ n_points ++ " total)" ++ nl ++
          json_dumps P data_points ++ nl in
        if include_alarms then
          alarms <- get_alarms P client (VBool true);;
          n_alarms <- len_str alarms;;
          ret (prompt_result "SCADA-LTS system overview"
                 (content ++ nl ++ "## Active Alarms (" ++ n_alarms ++ " total)" ++ nl ++
                  json_dumps P alarms ++ nl))
        else
          ret (prompt_result "SCADA-LTS system overview" content)
      else if String.eqb name "data_point_analysis" then
        raw <- lift (getitem arguments "data_source_id");;
        data_source_id <- lift (py_int P raw);;
        data_sources <- get_data_sources P client;;
        sources <- lift (py_iter data_sources);;
        target_ds <- lift (next_matching sources data_source_id);;
        if negb (truthy target_ds) then
          ret (prompt_result "Data source not found"
                 ("Data source with ID " ++ str_of_Z data_source_id ++ " not found."))
        else
          data_points <- get_data_points P client (VInt data_source_id);;
          points <- lift (py_iter data_points);;
          point_values <- fetch_values client points [];;
          title <- lift (py_get target_ds "name" (VStr "Unknown"));;
          n_points <- len_str data_points;;
          ret (prompt_result
                 ("Analysis of data source " ++ str_of_Z data_source_id)
                 ("# Data Source Analysis: " ++ py_str P title ++ nl ++ nl ++
                  "## Data Source Details" ++ nl ++ json_dumps P target_ds ++ nl ++ nl ++
                  "## Data Points (" ++ n_points ++ " total)" ++ nl ++
                  json_dumps P data_points ++ nl ++ nl ++
                  "## Current Values" ++ nl ++ json_dumps_mapping P point_values ++ nl))
      else
        ret (prompt_result "Unknown prompt" ("Unknown prompt: " ++ name))
  end.

(** ** A session: a sequence of requests of the hosting protocol layer *)

Inductive Invocation : Type :=
| InvokeTool (name : string) (arguments : dict)
| GetPrompt (name : string) (arguments : dict).

(** The world after one request is served, whether it returned or raised. *)
Definition serve (i : Invocation) (w : World) : World :=
  match i with
  | InvokeTool name arguments => snd (call_tool name arguments w)
  | GetPrompt name arguments => snd (get_prompt name arguments w)
  end.

Inductive reachable : World -> Prop :=
| reachable_initial : reachable initial
| reachable_serve i w : reachable w -> reachable (serve i w).

End Dispatch.

(** ** Vocabulary of the statements *)

(** The computation returns a value in world [w]: it does not raise. *)
Definition returns {A} (m : M A) (w : World) : Prop :=
  exists a w', m w = (Return a, w').

(** The computation leaves the global client, and the count of constructed
    clients, as they are, however it ends. *)
Definition keeps_client {A} (m : M A) : Prop :=
  forall w,
    scada_client (snd (m w)) = scada_client w /\
    allocated (snd (m w)) = allocated w.


(** The same as a function. *)
Definition parsed_or (sentinel : value) (o : Outcome) : value :=
  match o with
  | Responds r =>
      if (status_code r =? 200)%Z
      then match json r with
           | inr body => body
           | inl _ => sentinel
           end
      else sentinel
  | Fails _ => sentinel
  end.

(** [ok] is what a boolean capability makes of the outcome: status 200. *)
Definition succeeded (o : Outcome) : bool :=
  match o with
  | Responds r => (status_code r =? 200)%Z
  | Fails _ => false
  end.

(** The computation returns, having sent exactly the request [req] and having
    left the global client and the count of objects alone. *)
Definition one_request {A} (m : M A) (req : Request) : Prop :=
  forall w, exists a w',
    m w = (Return a, w') /\
    wire w' = (wire w ++ [req])%list /\
    scada_client w' = scada_client w /\
    allocated w' = allocated w.

(** [authenticate] takes the guest path: [not self.username or not
    self.password]. *)
Definition guest_mode (c : ScadaLTSClient) : bool :=
  (negb (truthy (username c)) || negb (truthy (password c)))%bool.

(** The object [c] after [c.session_token = tok]. *)
Definition with_token (c : ScadaLTSClient) (tok : value) : ScadaLTSClient :=
  mkClient (instance c) (base_url c) (username c) (password c) tok.

(** The token a login stores: the [token] field of a 200 answer whose body is
    a JSON object, None when the object has no such field.  Nothing is stored
    for another status, another body or a failed request. *)
Definition login_token (o : Outcome) : option value :=
  match o with
  | Responds r =>
      if (status_code r =? 200)%Z
      then match json r with
           | inr (VDict d) => Some (dict_get d "token" VNone)
           | _ => None
           end
      else None
  | Fails _ => None
  end.


(** The last character is a slash. *)
Fixpoint ends_with_slash (s : string) : bool :=
  match s with
  | EmptyString => false
  | String c EmptyString => Ascii.eqb c "/"
  | String _ s' => ends_with_slash s'
  end.

Fixpoint slashes (k : nat) : string :=
  match k with
  | O => EmptyString
  | S k' => String "/" (slashes k')
  end.

(** What holds of the client in every world the module can be in. *)
Definition client_ok (w : World) : Prop :=
  forall c, scada_client w = Some c ->
            (instance c < allocated w)%nat /\ ends_with_slash (base_url c) = false.

(** [dp.get("id")] of a data point that is a JSON object. *)
Definition id_of (dp : value) : value :=
  match dp with
  | VDict d => dict_get d "id" VNone
  | _ => VNone
  end.

(** The ids the loop of [data_point_analysis] fetches: those that pass
    [if point_id:]. *)
Definition truthy_ids (points : list value) : list value :=
  filter truthy (map id_of points).

(** The ids that are present, whatever their value: the wording "each point
    with a present id". *)
Definition present_ids (points : list value) : list value :=
  filter (fun i => match i with VNone => false | _ => true end) (map id_of points).

(** A data source that is a JSON object whose id is not [n]. *)
Definition other_source (n : Z) (ds : value) : Prop :=
  exists d, ds = VDict d /\ eq_int (dict_get d "id" VNone) n = false.

(** A data point that is a JSON object whose id, when it passes
    [if point_id:], can key a dict: a number, a bool or a string. *)
Definition plain_point (dp : value) : Prop :=
  exists d, dp = VDict d /\
            (truthy (dict_get d "id" VNone) = true -> hashable (dict_get d "id" VNone) = true).

Section Expected.

Variable P : Platform.

(** The request of [get_point_value(point_id)]. *)
Definition point_value_request (c : ScadaLTSClient) (point_id : value) : Request :=
  mkRequest GET (base_url c ++ "/api/point-values/" ++ py_str P point_id ++ "/latest")
            (Some (_get_headers P c)) None.

(** The request of [get_data_points(data_source_id)]. *)
Definition data_points_request (c : ScadaLTSClient) (data_source_id : value) : Request :=
  mkRequest GET
    (if truthy data_source_id
     then (base_url c ++ "/api/datapoints") ++ "?dataSourceId=" ++ py_str P data_source_id
     else base_url c ++ "/api/datapoints")
    (Some (_get_headers P c)) None.

(** The request of [get_data_sources()]. *)
Definition data_sources_request (c : ScadaLTSClient) : Request :=
  mkRequest GET (base_url c ++ "/api/datasources") (Some (_get_headers P c)) None.

(** The request of [set_point_value(point_id, v)]. *)
Definition set_point_request (c : ScadaLTSClient) (point_id v : value) : Request :=
  mkRequest POST (base_url c ++ "/api/point-values/" ++ py_str P point_id ++ "/set")
            (Some (_get_headers P c)) (Some (VDict [("value", v)])).

(** The request of [get_alarms(active_only)]. *)
Definition alarms_request (c : ScadaLTSClient) (active_only : value) : Request :=
  mkRequest GET
    (if truthy active_only
     then (base_url c ++ "/api/alarms") ++ "?active=true"
     else base_url c ++ "/api/alarms")
    (Some (_get_headers P c)) None.

(** The request of [acknowledge_alarm(alarm_id)]. *)
Definition acknowledge_request (c : ScadaLTSClient) (alarm_id : value) : Request :=
  mkRequest POST (base_url c ++ "/api/alarms/" ++ py_str P alarm_id ++ "/ack")
            (Some (_get_headers P c)) None.

(** The request of [get_system_status()]. *)
Definition status_request (c : ScadaLTSClient) : Request :=
  mkRequest GET (base_url c ++ "/api/system/status") (Some (_get_headers P c)) None.

(** The request of [authenticate()] when it sends one. *)
Definition login_request (c : ScadaLTSClient) : Request :=
  mkRequest POST (base_url c ++ "/api/auth/login") None
            (Some (VDict [("username", username c); ("password", password c)])).

(** The mapping built from the ids [ids], fetched one after the other
    starting with the requests [sent] on the wire. *)
Fixpoint expected_values (c : ScadaLTSClient) (ids : list value) (sent : list Request)
    (point_values : list (value * value)) : list (value * value) :=
  match ids with
  | [] => point_values
  | i :: rest =>
      let req := point_value_request c i in
      expected_values c rest (sent ++ [req])%list
        (setitem point_values i (parsed_or VNone (remote P sent req)))
  end.

End Expected.

(** ** The catalogs, in full *)

(** One entry of ["properties"] in an [inputSchema]: its key, its ["type"]
    (the [value] property of [set_point_value] declares none), its
    ["description"] and its ["default"] when it has one. *)
Record PropertySchema : Type := mkProperty {
  property_name : string;
  property_type : option string;
  property_description : string;
  property_default : option value
}.

(** [Tool(name=..., description=..., inputSchema={"type": "object",
    "properties": ..., "required": ...})] *)
Record Tool : Type := mkTool {
  tool_name : string;
  tool_description : string;
  tool_properties : list PropertySchema;
  tool_required : list string
}.

(** What [list_tools()] returns. *)
Definition tool_catalog : list Tool :=
  [ mkTool "get_data_sources" "Get all data sources from SCADA-LTS system" [] [];
    mkTool "get_data_points"
      "Get data points from SCADA-LTS system, optionally filtered by data source ID"
      [mkProperty "data_source_id" (Some "integer")
         "Optional data source ID to filter data points" None]
      [];
    mkTool "get_point_value" "Get current value of a specific data point"
      [mkProperty "point_id" (Some "integer") "ID of the data point to read" None]
      ["point_id"];
    mkTool "set_point_value" "Set value of a settable data point"
      [mkProperty "point_id" (Some "integer") "ID of the data point to write to" None;
       mkProperty "value" None "Value to write (number, boolean, or string)" None]
      ["point_id"; "value"];
    mkTool "get_alarms" "Get system alarms"
      [mkProperty "active_only" (Some "boolean")
         "Whether to return only active alarms (default: true)" (Some (VBool true))]
      [];
    mkTool "acknowledge_alarm" "Acknowledge an alarm"
      [mkProperty "alarm_id" (Some "integer") "ID of the alarm to acknowledge" None]
      ["alarm_id"];
    mkTool "get_system_status" "Get SCADA-LTS system status information" [] [];
    mkTool "configure_connection" "Configure connection to SCADA-LTS system"
      [mkProperty "base_url" (Some "string")
         "Base URL of SCADA-LTS system (e.g., http://localhost:8080/Scada-LTS)" None;
       mkProperty "username" (Some "string") "Username for authentication (optional)" None;
       mkProperty "password" (Some "string") "Password for authentication (optional)" None]
      ["base_url"] ].

(** [PromptArgument(name=..., description=..., required=...)] *)
Record PromptArgument : Type := mkPromptArgument {
  argument_name : string;
  argument_description : string;
  argument_required : bool
}.

(** [Prompt(name=..., description=..., arguments=[...])] *)
Record Prompt : Type := mkPrompt {
  prompt_name : string;
  prompt_description : string;
  prompt_arguments : list PromptArgument
}.

(** What [list_prompts()] returns. *)
Definition prompt_catalog : list Prompt :=
  [ mkPrompt "scada_system_overview"
      "Get a comprehensive overview of the SCADA-LTS system"
      [mkPromptArgument "include_alarms" "Whether to include alarm information" false];
    mkPrompt "data_point_analysis" "Analyze data points for a specific data source"
      [mkPromptArgument "data_source_id" "ID of the data source to analyze" true] ].

(** The first key among [keys] that [arguments] lacks. *)
Definition first_missing (keys : list string) (arguments : dict) : option string :=
  find (fun k => match lookup k arguments with
                 | Some _ => false
                 | None => true
                 end) keys.

(** The names of the prompt arguments declared [required=True]. *)
Definition required_arguments (p : Prompt) : list string :=
  map argument_name (filter argument_required (prompt_arguments p)).

(** ** More vocabulary: what a computation puts on the wire *)

(** Whatever the world and however it ends, the computation only adds
    requests to the wire, and each one it adds satisfies [Q]. *)
Definition sends_only (Q : Request -> Prop) {A} (m : M A) : Prop :=
  forall w, exists reqs,
    wire (snd (m w)) = (wire w ++ reqs)%list /\ Forall Q reqs.

(** The computation sends nothing. *)
Definition quiet {A} (m : M A) : Prop :=
  forall w, wire (snd (m w)) = wire w.

(** The request goes to a path under [/api/] of the base URL [b]. *)
Definition addressed_to (b : string) (r : Request) : Prop :=
  exists path, url r = b ++ "/api/" ++ path.

(** The exception, if any, that the [try] block of a capability reading
    JSON meets: the request failed, or the body of a 200 answer does not
    parse. *)
Definition body_error (o : Outcome) : option exn :=
  match o with
  | Fails e => Some e
  | Responds r =>
      if (status_code r =? 200)%Z
      then match json r with
           | inl e => Some e
           | inr _ => None
           end
      else None
  end.

(** The same for a capability that only looks at the status. *)
Definition transport_error (o : Outcome) : option exn :=
  match o with
  | Fails e => Some e
  | Responds _ => None
  end.

(** The keys of a mapping built with [setitem]. *)
Definition has_key (point_values : list (value * value)) (k : value) : Prop :=
  exists k' v, In (k', v) point_values /\ key_eqb k' k = true.

Section Contract.

Variable P : Platform.

(** The REST call behind a tool call, for the client [c]: none when a
    required argument is missing or the name is not a data tool. *)
Definition tool_request (c : ScadaLTSClient) (name : string) (arguments : dict)
  : option Request :=
  if String.eqb name "get_data_sources" then
    Some (data_sources_request P c)
  else if String.eqb name "get_data_points" then
    Some (data_points_request P c (dict_get arguments "data_source_id" VNone))
  else if String.eqb name "get_point_value" then
    match lookup "point_id" arguments with
    | Some point_id => Some (point_value_request P c point_id)
    | None => None
    end
  else if String.eqb name "set_point_value" then
    match lookup "point_id" arguments, lookup "value" arguments with
    | Some point_id, Some v => Some (set_point_request P c point_id v)
    | _, _ => None
    end
  else if String.eqb name "get_alarms" then
    Some (alarms_request P c (dict_get arguments "active_only" (VBool true)))
  else if String.eqb name "acknowledge_alarm" then
    match lookup "alarm_id" arguments with
    | Some alarm_id => Some (acknowledge_request P c alarm_id)
    | None => None
    end
  else if String.eqb name "get_system_status" then
    Some (status_request P c)
  else None.

(** The ERROR record a capability writes for the exception it caught. *)
Definition error_record (prefix : string) (caught : option exn) : list (level * string) :=
  match caught with
  | Some e => [(ERROR, prefix ++ exn_str P e)]
  | None => []
  end.

(** The three requests every [scada_system_overview] starts with. *)
Definition overview_requests (c : ScadaLTSClient) : list Request :=
  [data_sources_request P c; data_points_request P c VNone; status_request P c].

End Contract.

(** ** A sample platform, to run the model *)

Module Sample.

Definition digit (c : ascii) : option Z :=
  let n := nat_of_ascii c in
  if (Nat.leb 48 n && Nat.leb n 57)%bool then Some (Z.of_nat (n - 48)) else None.

Fixpoint digits (s : string) (acc : Z) : option Z :=
  match s with
  | EmptyString => Some acc
  | String c s' => match digit c with
                   | Some d => digits s' (10 * acc + d)
                   | None => None
                   end
  end.

(** Unsigned decimal literals only. *)
Definition int_of_str (s : string) : option Z :=
  match s with
  | EmptyString => None
  | _ => digits s 0
  end.

Definition exn_str (e : exn) : string :=
  match e with
  | KeyError k => "'" ++ k ++ "'"
  | AttributeError t a => "'" ++ t ++ "' object has no attribute '" ++ a ++ "'"
  | TypeError what t => what ++ ": '" ++ t ++ "'"
  | ValueError l => "invalid literal for int() with base 10: '" ++ l ++ "'"
  | HTTPError m => m
  end.

(** A SCADA system with one data source, 1, holding the data points 0 and 7;
    its login hands out an empty token. *)
Definition scada (sent : list Request) (r : Request) : Outcome :=
  if String.eqb (url r) "http://scada/api/auth/login" then
    Responds (mkResponse 200 (inr (VDict [("token", VStr EmptyString)])))
  else if String.eqb (url r) "http://scada/api/datasources" then
    Responds (mkResponse 200 (inr (VList [VDict [("id", VInt 1); ("name", VStr "plc")]])))
  else if String.eqb (url r) "http://scada/api/datapoints?dataSourceId=1" then
    Responds (mkResponse 200 (inr (VList [VDict [("id", VInt 0)]; VDict [("id", VInt 7)]])))
  else if String.eqb (url r) "http://scada/api/point-values/7/latest" then
    Responds (mkResponse 200 (inr (VDict [("value", VInt 21)])))
  else if String.eqb (url r) "http://scada/api/system/status" then
    Responds (mkResponse 503 (inl (HTTPError "no body")))
  else Fails (HTTPError "connection refused").

Definition platform : Platform :=
  mkPlatform scada (fun _ => "<json>") (fun _ => "<json>") (fun _ => "<repr>")
             exn_str int_of_str.

(** A guest client, as [configure_connection] with a bare [base_url]
    leaves it. *)
Definition guest : ScadaLTSClient :=
  mkClient 0 "http://scada" (VStr EmptyString) (VStr EmptyString) VNone.

(** A client with credentials, before it logs in. *)
Definition operator : ScadaLTSClient :=
  mkClient 0 "http://scada" (VStr "op") (VStr "secret") VNone.

Definition configured (c : ScadaLTSClient) : World :=
  mkWorld (Some c) [] [] 1.

Definition credentials : dict :=
  [("base_url", VStr "http://scada/"); ("username", VStr "op"); ("password", VStr "secret")].

(** The world after [configure_connection] with [credentials] on the module
    as loaded. *)
Definition logged_in : World :=
  snd (call_tool platform "configure_connection" credentials initial).

(** The data points the sample system reports for data source 1. *)
Definition points : list value :=
  [VDict [("id", VInt 0)]; VDict [("id", VInt 7)]].

(** A second system, at [http://plant]: its login hands out the token
    [s3cr3t], its data sources answer is the number 5, and it accepts
    writes to the point 42. *)
Definition plant (sent : list Request) (r : Request) : Outcome :=
  if String.eqb (url r) "http://plant/api/auth/login" then
    Responds (mkResponse 200 (inr (VDict [("token", VStr "s3cr3t")])))
  else if String.eqb (url r) "http://plant/api/datasources" then
    Responds (mkResponse 200 (inr (VInt 5)))
  else if String.eqb (url r) "http://plant/api/point-values/42/set" then
    Responds (mkResponse 200 (inr (VDict [])))
  else if String.eqb (url r) "http://plant/api/point-values/42/latest" then
    Responds (mkResponse 200 (inr VNone))
  else if String.eqb (url r) "http://plant/api/datapoints" then
    Responds (mkResponse 200 (inr (VList [])))
  else if String.eqb (url r) "http://plant/api/alarms?active=true" then
    Responds (mkResponse 200 (inr (VList [VDict [("id", VInt 3)]])))
  else Fails (HTTPError "timed out").

Definition plant_platform : Platform :=
  mkPlatform plant (fun _ => "<json>") (fun _ => "<json>") (fun _ => "<repr>")
             exn_str int_of_str.

Definition plant_credentials : dict :=
  [("base_url", VStr "http://plant"); ("username", VStr "op"); ("password", VStr "secret")].

(** A guest client of the plant. *)
Definition visitor : ScadaLTSClient :=
  mkClient 0 "http://plant" (VStr EmptyString) (VStr EmptyString) VNone.

End Sample.

(** * Properties *)

(** ** The monad *)

Lemma try_except_returns {A} (body : M A) (handler : exn -> M A) (w : World) :
  (forall e w', returns (handler e) w') -> returns (try_except body handler) w.
Proof.
  intros H. unfold returns, try_except.
  destruct (body w) as [[a | e] w'].
  - eauto.
  - apply H.
Qed.

Lemma bind_keeps_client {A B} (m : M A) (k : A -> M B) :
  keeps_client m -> (forall a, keeps_client (k a)) -> keeps_client (bind m k).
Proof.
  intros Hm Hk w. unfold bind. destruct (Hm w) as [Hc Ha].
  destruct (m w) as [[a | e] w']; simpl in *.
  - destruct (Hk a w') as [Hc' Ha']. split; congruence.
  - auto.
Qed.

Lemma try_except_keeps_client {A} (body : M A) (handler : exn -> M A) :
  keeps_client body -> (forall e, keeps_client (handler e)) ->
  keeps_client (try_except body handler).
Proof.
  intros Hb Hh w. unfold try_except. destruct (Hb w) as [Hc Ha].
  destruct (body w) as [[a | e] w']; simpl in *.
  - auto.
  - destruct (Hh e w') as [Hc' Ha']. split; congruence.
Qed.

Lemma ret_keeps_client {A} (a : A) : keeps_client (ret a).
Proof. intros w. split; reflexivity. Qed.

Lemma raise_keeps_client {A} (e : exn) : keeps_client (@raise A e).
Proof. intros w. split; reflexivity. Qed.

Lemma lift_keeps_client {A} (r : exn + A) : keeps_client (lift r).
Proof. destruct r; intros w; split; reflexivity. Qed.

Lemma log_keeps_client (l : level) (msg : string) : keeps_client (log l msg).
Proof. intros w. split; reflexivity. Qed.

Lemma get_scada_client_keeps_client : keeps_client get_scada_client.
Proof. intros w. split; reflexivity. Qed.

Lemma send_keeps_client (P : Platform) (r : Request) : keeps_client (send P r).
Proof. intros w. unfold send. destruct (remote P (wire w) r); split; reflexivity. Qed.

Lemma len_str_keeps_client (v : value) : keeps_client (len_str v).
Proof.
  unfold len_str. apply bind_keeps_client.
  - apply lift_keeps_client.
  - intros n. apply ret_keeps_client.
Qed.

Create HintDb frame.
#[local] Hint Resolve ret_keeps_client raise_keeps_client lift_keeps_client
  log_keeps_client get_scada_client_keeps_client send_keeps_client
  len_str_keeps_client : frame.

(** Splits a computation into its steps, each discharged from [frame]. *)
Ltac frame :=
  repeat first
    [ apply bind_keeps_client; [ | intros ? ]
    | apply try_except_keeps_client; [ | intros ? ]
    | match goal with
      | |- keeps_client (if ?b then _ else _) => destruct b
      | |- keeps_client (match ?x with _ => _ end) => destruct x
      end
    | solve [ auto with frame ] ].

(** ** The client: closed forms of the capabilities *)

Section ClientFacts.

Variable P : Platform.

(** The pattern shared by the four capabilities that return parsed JSON or a
    fixed sentinel. *)
Lemma fetch_json_closed (req : Request) (sentinel : value) (msg : string) (w : World) :
  exists w',
    try_except
      (response <- send P req;;
       if (status_code response =? 200)%Z then lift (json response) else ret sentinel)
      (fun e => log ERROR (msg ++ exn_str P e);; ret sentinel) w
    = (Return (parsed_or sentinel (remote P (wire w) req)), w') /\
    wire w' = (wire w ++ [req])%list /\
    scada_client w' = scada_client w /\
    allocated w' = allocated w.
Proof.
  unfold try_except, bind, send, parsed_or.
  destruct (remote P (wire w) req) as [e | r]; simpl.
  - eexists; split; [reflexivity | auto].
  - destruct (status_code r =? 200)%Z; simpl.
    + destruct (json r) as [e | body]; simpl; eexists; split; try reflexivity; auto.
    + eexists; split; [reflexivity | auto].
Qed.


Lemma get_data_sources_closed (self : ScadaLTSClient) (w : World) :
  exists w',
    get_data_sources P self w
    = (Return (parsed_or (VList []) (remote P (wire w) (data_sources_request P self))), w') /\
    wire w' = (wire w ++ [data_sources_request P self])%list /\
    scada_client w' = scada_client w /\
    allocated w' = allocated w.
Proof. apply fetch_json_closed. Qed.

Lemma get_data_points_closed (self : ScadaLTSClient) (i : value) (w : World) :
  exists w',
    get_data_points P self i w
    = (Return (parsed_or (VList []) (remote P (wire w) (data_points_request P self i))), w') /\
    wire w' = (wire w ++ [data_points_request P self i])%list /\
    scada_client w' = scada_client w /\
    allocated w' = allocated w.
Proof.
  unfold get_data_points, data_points_request.
  destruct (truthy i); apply fetch_json_closed.
Qed.

Lemma get_point_value_closed (self : ScadaLTSClient) (i : value) (w : World) :
  exists w',
    get_point_value P self i w
    = (Return (parsed_or VNone (remote P (wire w) (point_value_request P self i))), w') /\
    wire w' = (wire w ++ [point_value_request P self i])%list /\
    scada_client w' = scada_client w /\
    allocated w' = allocated w.
Proof. apply fetch_json_closed. Qed.

End ClientFacts.

Section Capabilities.

Variable P : Platform.

Lemma post_closed (req : Request) (msg : string) (w : World) :
  exists w',
    try_except
      (response <- send P req;; ret (status_code response =? 200)%Z)
      (fun e => log ERROR (msg ++ exn_str P e);; ret false) w
    = (Return (succeeded (remote P (wire w) req)), w') /\
    wire w' = (wire w ++ [req])%list /\
    scada_client w' = scada_client w /\
    allocated w' = allocated w.
Proof.
  unfold try_except, bind, send, succeeded.
  destruct (remote P (wire w) req) as [e | r]; simpl;
    eexists; split; try reflexivity; auto.
Qed.


(** C10.  [get_data_points] adds the [dataSourceId] filter only for a truthy
    [data_source_id].  With 0, as with None, the URL is the bare
    [/api/datapoints]: asking for data source 0 is the same computation as
    asking for every data point, in the client and in the [get_data_points]
    tool alike. *)
Theorem data_source_zero_is_unfiltered (self : ScadaLTSClient) (w : World) :
  (forall data_source_id, exists req,
      wire (snd (get_data_points P self data_source_id w)) = (wire w ++ [req])%list /\
      method req = GET /\
      url req = if truthy data_source_id
                then (base_url self ++ "/api/datapoints") ++
                     "?dataSourceId=" ++ py_str P data_source_id
                else base_url self ++ "/api/datapoints") /\
  get_data_points P self (VInt 0) w = get_data_points P self VNone w /\
  call_tool P "get_data_points" [("data_source_id", VInt 0)] w
  = call_tool P "get_data_points" [] w.
Proof.
  split; [| split].
  - intros i. destruct (get_data_points_closed P self i w) as (w' & E & Hw & _).
    exists (data_points_request P self i). rewrite E. simpl.
    split; [exact Hw |]. split; reflexivity.
  - reflexivity.
  - reflexivity.
Qed.

End Capabilities.

(** ** The tool dispatcher *)

Section ToolDispatch.

Variable P : Platform.

Lemma call_tool_never_raises (name : string) (arguments : dict) (w : World) :
  returns (call_tool P name arguments) w.
Proof.
  unfold call_tool. apply try_except_returns.
  intros e w'. eexists _, _. reflexivity.
Qed.

Lemma not_in_catalog (name : string) :
  ~ In name list_tools ->
  String.eqb name "get_data_sources" = false /\
  String.eqb name "get_data_points" = false /\
  String.eqb name "get_point_value" = false /\
  String.eqb name "set_point_value" = false /\
  String.eqb name "get_alarms" = false /\
  String.eqb name "acknowledge_alarm" = false /\
  String.eqb name "get_system_status" = false /\
  String.eqb name "configure_connection" = false.
Proof.
  intros H. repeat split; apply String.eqb_neq; intros ->; apply H; simpl; tauto.
Qed.

(** C3.  While no client is configured, a call of any tool but
    [configure_connection], with any arguments, returns the fixed advisory
    text as an ordinary result and leaves the world as it is: nothing is put
    on the wire. *)
Theorem unconfigured_tool_call_is_advisory (name : string) (arguments : dict) (w : World) :
  name <> "configure_connection" ->
  scada_client w = None ->
  call_tool P name arguments w = (Return (text_result not_configured_text), w) /\
  isError (text_result not_configured_text) = false /\
  wire (snd (call_tool P name arguments w)) = wire w.
Proof.
  intros Hname Hnone.
  assert (E : call_tool P name arguments w = (Return (text_result not_configured_text), w)).
  { unfold call_tool, try_except, call_tool_body.
    apply String.eqb_neq in Hname. rewrite Hname.
    unfold bind, get_scada_client. rewrite Hnone. reflexivity. }
  rewrite E. auto.
Qed.

(** C5, amended.  Once a client is configured, a call with a name outside the
    catalog of eight tools returns the text "Unknown tool: {name}" as an
    ordinary result, whatever the arguments, and changes nothing. *)
Theorem unknown_tool_when_configured
    (name : string) (arguments : dict) (w : World) (c : ScadaLTSClient) :
  scada_client w = Some c ->
  ~ In name list_tools ->
  call_tool P name arguments w = (Return (text_result ("Unknown tool: " ++ name)), w) /\
  isError (text_result ("Unknown tool: " ++ name)) = false.
Proof.
  intros Hc Hout. split; [| reflexivity].
  destruct (not_in_catalog name Hout) as (E1 & E2 & E3 & E4 & E5 & E6 & E7 & E8).
  unfold call_tool, try_except, call_tool_body.
  rewrite E8. unfold bind at 1, get_scada_client. rewrite Hc.
  rewrite E1, E2, E3, E4, E5, E6, E7. reflexivity.
Qed.

(** C1, the prompt dispatcher.  [get_prompt] has no handler: with a client
    configured, [data_point_analysis] without its [data_source_id] argument
    raises KeyError out of the dispatcher. *)
Theorem get_prompt_missing_argument_raises (w : World) (c : ScadaLTSClient) :
  scada_client w = Some c ->
  get_prompt P "data_point_analysis" [] w = (Raise (KeyError "data_source_id"), w).
Proof.
  intros Hc. unfold get_prompt, bind, get_scada_client. rewrite Hc. reflexivity.
Qed.

End ToolDispatch.

(** ** One request per capability *)

Section OneRequest.

Variable P : Platform.

Lemma fetch_json_one_request (req : Request) (sentinel : value) (msg : string) :
  one_request
    (try_except
       (response <- send P req;;
        if (status_code response =? 200)%Z then lift (json response) else ret sentinel)
       (fun e => log ERROR (msg ++ exn_str P e);; ret sentinel)) req.
Proof.
  intros w. destruct (fetch_json_closed P req sentinel msg w) as (w' & E & H).
  eexists _, w'. split; [exact E | exact H].
Qed.

Lemma post_one_request (req : Request) (msg : string) :
  one_request
    (try_except
       (response <- send P req;; ret (status_code response =? 200)%Z)
       (fun e => log ERROR (msg ++ exn_str P e);; ret false)) req.
Proof.
  intros w. destruct (post_closed P req msg w) as (w' & E & H).
  eexists _, w'. split; [exact E | exact H].
Qed.

Lemma get_data_sources_one (self : ScadaLTSClient) :
  one_request (get_data_sources P self) (data_sources_request P self).
Proof. apply fetch_json_one_request. Qed.

Lemma get_data_points_one (self : ScadaLTSClient) (i : value) :
  one_request (get_data_points P self i) (data_points_request P self i).
Proof.
  unfold get_data_points, data_points_request.
  destruct (truthy i); apply fetch_json_one_request.
Qed.

Lemma get_point_value_one (self : ScadaLTSClient) (i : value) :
  one_request (get_point_value P self i) (point_value_request P self i).
Proof. apply fetch_json_one_request. Qed.

Lemma set_point_value_one (self : ScadaLTSClient) (i v : value) :
  one_request (set_point_value P self i v) (set_point_request P self i v).
Proof. apply post_one_request. Qed.

Lemma get_alarms_one (self : ScadaLTSClient) (a : value) :
  one_request (get_alarms P self a) (alarms_request P self a).
Proof.
  unfold get_alarms, alarms_request.
  destruct (truthy a); apply fetch_json_one_request.
Qed.

Lemma acknowledge_alarm_one (self : ScadaLTSClient) (i : value) :
  one_request (acknowledge_alarm P self i) (acknowledge_request P self i).
Proof. apply post_one_request. Qed.

Lemma get_system_status_one (self : ScadaLTSClient) :
  one_request (get_system_status P self) (status_request P self).
Proof.
  intros w. unfold get_system_status, status_request, try_except, bind, send.
  destruct (remote P (wire w) _) as [e | r]; simpl.
  - eexists _, _. split; [reflexivity | auto].
  - destruct (status_code r =? 200)%Z; simpl.
    + destruct (json r) as [e | body]; simpl; (eexists _, _; split; [reflexivity | auto]).
    + eexists _, _. split; [reflexivity | auto].
Qed.

Lemma one_request_keeps_client {A} (m : M A) (req : Request) :
  one_request m req -> keeps_client m.
Proof.
  intros H w. destruct (H w) as (a & w' & E & _ & Hc & Ha). rewrite E. auto.
Qed.


(** [authenticate] in closed form. *)
Lemma authenticate_closed (self : ScadaLTSClient) (w : World) :
  exists w',
    authenticate P self w =
      (Return (if guest_mode self then true
               else match login_token (remote P (wire w) (login_request self)) with
                    | Some _ => true
                    | None => false
                    end), w') /\
    allocated w' = allocated w /\
    wire w' = (if guest_mode self then wire w
               else (wire w ++ [login_request self])%list) /\
    scada_client w' =
      (if guest_mode self then scada_client w
       else match login_token (remote P (wire w) (login_request self)) with
            | Some tok =>
                match scada_client w with
                | Some c => if Nat.eqb (instance c) (instance self)
                            then Some (with_token c tok) else Some c
                | None => None
                end
            | None => scada_client w
            end).
Proof.
  unfold authenticate. fold (guest_mode self).
  destruct (guest_mode self).
  - eexists. split; [reflexivity | auto].
  - unfold try_except, bind, send. fold (login_request self).
    unfold login_token.
    destruct (remote P (wire w) (login_request self)) as [e | r]; simpl.
    + eexists. split; [reflexivity | auto].
    + destruct (status_code r =? 200)%Z; simpl.
      * destruct (json r) as [e | [ | b | n | s | l | d]]; simpl;
          try (eexists; split; [reflexivity | auto]).
        unfold set_session_token; simpl.
        destruct (scada_client w) as [c |]; simpl.
        -- destruct (Nat.eqb (instance c) (instance self)); simpl;
             (eexists; split; [reflexivity | auto]).
        -- eexists; split; [reflexivity | auto].
      * eexists. split; [reflexivity | auto].
Qed.

End OneRequest.

#[local] Hint Resolve one_request_keeps_client get_data_sources_one get_data_points_one
  get_point_value_one set_point_value_one get_alarms_one acknowledge_alarm_one
  get_system_status_one : frame.

(** ** Authentication and headers *)

Section Session.

Variable P : Platform.

Lemma configure_connection_closed (arguments : dict) (s : string) (w : World) :
  lookup "base_url" arguments = Some (VStr s) ->
  let c := mkClient (allocated w) (rstrip "/" s)
                    (dict_get arguments "username" (VStr EmptyString))
                    (dict_get arguments "password" (VStr EmptyString)) VNone in
  let stored := if guest_mode c then None
                else login_token (remote P (wire w) (login_request c)) in
  exists w',
    call_tool P "configure_connection" arguments w =
      (Return (text_result
                 ("Connection configured for " ++ s ++ ". " ++ "Authentication: " ++
                  (if guest_mode c then "successful"
                   else match stored with
                        | Some _ => "successful"
                        | None => "failed or guest mode"
                        end))), w') /\
    allocated w' = S (allocated w) /\
    wire w' = (if guest_mode c then wire w else (wire w ++ [login_request c])%list) /\
    scada_client w' = Some (match stored with
                            | Some tok => with_token c tok
                            | None => c
                            end).
Proof.
  intros Hurl c stored.
  unfold call_tool, call_tool_body.
  change (String.eqb "configure_connection" "configure_connection") with true.
  cbv iota. unfold try_except, bind, getitem. rewrite Hurl.
  unfold lift, ret, ScadaLTSClient_init, set_scada_client. cbv beta iota.
  cbn [scada_client wire logged allocated]. fold c.
  match goal with
  | |- context [ authenticate P c ?w1 ] =>
      destruct (authenticate_closed P c w1) as (w' & E & Ha & Hw & Hc);
      cbn [scada_client wire logged allocated] in E, Ha, Hw, Hc; rewrite E
  end.
  exists w'. unfold stored.
  destruct (guest_mode c).
  - split; [reflexivity |]. auto.
  - destruct (login_token (remote P (wire w) (login_request c))) as [tok |].
    + rewrite Nat.eqb_refl in Hc. split; [reflexivity |]. auto.
    + split; [reflexivity |]. auto.
Qed.

(** C4.  [authenticate] in guest mode (an empty username or password) returns
    True at once: nothing is sent and the client is untouched.  With
    credentials it POSTs them to [/api/auth/login]; a 200 answer carrying a
    JSON object makes the object's [token] field the session token and the
    result True; any other status, an answer that cannot be read as such an
    object and a transport exception give False and leave the token as it
    was.  Through [configure_connection], a bare [base_url] reports
    "successful" and leaves a client without token, whose requests carry the
    Content-Type header alone. *)
Theorem authenticate_guest_or_login (self : ScadaLTSClient) (w : World) :
  (scada_client w = Some self ->
   exists ok w',
     authenticate P self w = (Return ok, w') /\
     if guest_mode self
     then ok = true /\ wire w' = wire w /\ scada_client w' = Some self
     else
       wire w' = (wire w ++ [login_request self])%list /\
       match remote P (wire w) (login_request self) with
       | Responds r =>
           if (status_code r =? 200)%Z
           then match json r with
                | inr (VDict d) =>
                    ok = true /\
                    scada_client w' = Some (with_token self (dict_get d "token" VNone))
                | _ => ok = false /\ scada_client w' = Some self
                end
           else ok = false /\ scada_client w' = Some self
       | Fails _ => ok = false /\ scada_client w' = Some self
       end) /\
  (forall arguments s,
     lookup "base_url" arguments = Some (VStr s) ->
     lookup "username" arguments = None ->
     lookup "password" arguments = None ->
     exists c w',
       call_tool P "configure_connection" arguments w =
         (Return (text_result ("Connection configured for " ++ s ++
                               ". Authentication: successful")), w') /\
       wire w' = wire w /\
       scada_client w' = Some c /\
       session_token c = VNone /\
       _get_headers P c = [("Content-Type", "application/json")]).
Proof.
  split.
  - intros Hself.
    destruct (authenticate_closed P self w) as (w' & E & _ & Hw & Hc).
    eexists _, w'. split; [exact E |].
    destruct (guest_mode self).
    + rewrite <- Hself. auto.
    + split; [exact Hw |]. rewrite Hself, Nat.eqb_refl in Hc. unfold login_token in *.
      destruct (remote P (wire w) (login_request self)) as [e | r]; [auto |].
      destruct (status_code r =? 200)%Z; [| auto].
      destruct (json r) as [e | [ | b | n | t | l | d]]; auto.
  - intros arguments s Hurl Hu Hp.
    destruct (configure_connection_closed arguments s w Hurl) as (w' & E & _ & Hw & Hc).
    unfold dict_get in *. rewrite Hu, Hp in *. simpl in *.
    eexists _, w'. split; [exact E |]. split; [exact Hw |]. split; [exact Hc |].
    split; reflexivity.
Qed.



End Session.

(** ** The global client across a session *)

Section Frame.

Variable P : Platform.

Lemma call_tool_keeps_client (name : string) (arguments : dict) :
  name <> "configure_connection" -> keeps_client (call_tool P name arguments).
Proof.
  intros H. apply String.eqb_neq in H.
  unfold call_tool, call_tool_body. rewrite H. cbv zeta. frame.
Qed.

Lemma fetch_values_keeps_client (c : ScadaLTSClient) (points : list value) :
  forall point_values, keeps_client (fetch_values P c points point_values).
Proof.
  induction points as [| dp rest IH]; intros pv; simpl; frame.
Qed.

Lemma get_prompt_keeps_client (name : string) (arguments : dict) :
  keeps_client (get_prompt P name arguments).
Proof.
  pose proof (fetch_values_keeps_client) as Hloop.
  unfold get_prompt. cbv zeta. frame.
Qed.

(** A [configure_connection] that cannot build a client (no [base_url], or one
    that is not a string) is reported as an error and changes nothing. *)
Lemma configure_connection_rejected (arguments : dict) (w : World) :
  (forall s, lookup "base_url" arguments <> Some (VStr s)) ->
  exists e,
    call_tool P "configure_connection" arguments w =
      (Return (text_result ("Error executing configure_connection: " ++ exn_str P e)), w).
Proof.
  intros H.
  unfold call_tool, call_tool_body.
  change (String.eqb "configure_connection" "configure_connection") with true.
  cbv iota. unfold try_except, bind, getitem.
  destruct (lookup "base_url" arguments) as [v |] eqn:E.
  - destruct v; try (eexists; reflexivity). exfalso. apply (H s). reflexivity.
  - eexists; reflexivity.
Qed.

(** One request of the protocol layer either leaves the client and the count
    of objects alone, or installs a client that did not exist before. *)
Lemma serve_step (i : Invocation) (w : World) :
  (scada_client (serve P i w) = scada_client w /\
   allocated (serve P i w) = allocated w) \/
  (exists c s,
      scada_client (serve P i w) = Some c /\
      instance c = allocated w /\
      base_url c = rstrip "/" s /\
      allocated (serve P i w) = S (allocated w)).
Proof.
  destruct i as [name arguments | name arguments]; simpl.
  - destruct (string_dec name "configure_connection") as [-> | Hname].
    + destruct (lookup "base_url" arguments) as [[ | b | n | s | l | d] |] eqn:E;
        try (left;
             destruct (configure_connection_rejected arguments w) as (e & Ee);
             [intros s' Hs'; congruence | rewrite Ee; auto]).
      right.
      destruct (configure_connection_closed P arguments s w E) as (w' & Ee & Ha & _ & Hc).
      rewrite Ee. simpl.
      eexists _, s. split; [exact Hc |].
      split; [| split; [| exact Ha]];
        match goal with |- context [ match ?x with _ => _ end ] => destruct x end;
        reflexivity.
    + left. apply call_tool_keeps_client. exact Hname.
  - left. apply get_prompt_keeps_client.
Qed.

Lemma rstrip_no_trailing_slash (s : string) : ends_with_slash (rstrip "/" s) = false.
Proof.
  induction s as [| a s IH]; simpl; [reflexivity |].
  destruct (rstrip "/" s) as [| b r] eqn:E.
  - destruct (Ascii.eqb a "/") eqn:Ea; simpl; [reflexivity | exact Ea].
  - simpl in *. exact IH.
Qed.

Lemma rstrip_drops_slashes (s : string) : exists k, s = rstrip "/" s ++ slashes k.
Proof.
  induction s as [| a s [k IH]]; simpl.
  - exists O. reflexivity.
  - destruct (rstrip "/" s) as [| b r] eqn:E.
    + simpl in IH. destruct (Ascii.eqb a "/") eqn:Ea.
      * apply Ascii.eqb_eq in Ea. subst a. exists (S k). simpl. congruence.
      * exists k. simpl. congruence.
    + exists k. simpl in *. congruence.
Qed.

Lemma reachable_client_ok (w : World) : reachable P w -> client_ok w.
Proof.
  induction 1 as [| i w Hw IH].
  - intros c Hc. discriminate.
  - intros c Hc.
    destruct (serve_step i w) as [[Hs Ha] | (c' & s & Hs & Hi & Hb & Ha)].
    + rewrite Hs in Hc. destruct (IH c Hc) as [Hlt Hsl]. split; [lia | exact Hsl].
    + rewrite Hs in Hc. injection Hc as <-. split; [lia |].
      rewrite Hb. apply rstrip_no_trailing_slash.
Qed.

End Frame.

Section Configuration.

Variable P : Platform.

(** C7, amended.  Only [configure_connection] touches the global client: any
    other tool call and any prompt request leave it as it is, and a
    configured module never becomes unconfigured.  A [configure_connection]
    call whose [base_url] is a string installs a client that did not exist
    before, built from the arguments alone; its session token is None or the
    token of this call's own login, never the token of the client it
    replaces.  A call that cannot build a client (no [base_url], or one that
    is not a string) leaves the previous client in place. *)
Theorem only_configure_connection_replaces_client (w : World) :
  (forall name arguments,
      name <> "configure_connection" ->
      scada_client (snd (call_tool P name arguments w)) = scada_client w) /\
  (forall name arguments,
      scada_client (snd (get_prompt P name arguments w)) = scada_client w) /\
  (forall i, scada_client w <> None -> scada_client (serve P i w) <> None) /\
  (forall arguments s,
      lookup "base_url" arguments = Some (VStr s) ->
      exists c,
        scada_client (snd (call_tool P "configure_connection" arguments w)) = Some c /\
        instance c = allocated w /\
        base_url c = rstrip "/" s /\
        username c = dict_get arguments "username" (VStr EmptyString) /\
        password c = dict_get arguments "password" (VStr EmptyString) /\
        (session_token c = VNone \/
         guest_mode c = false /\
         login_token (remote P (wire w) (login_request c)) = Some (session_token c)) /\
        (forall old, reachable P w -> scada_client w = Some old ->
                     instance old <> instance c)) /\
  (forall arguments,
      (forall s, lookup "base_url" arguments <> Some (VStr s)) ->
      scada_client (snd (call_tool P "configure_connection" arguments w)) = scada_client w).
Proof.
  split; [| split; [| split; [| split]]].
  - intros name arguments Hname. apply call_tool_keeps_client. exact Hname.
  - intros name arguments. apply get_prompt_keeps_client.
  - intros i Hsome.
    destruct (serve_step P i w) as [[Hs _] | (c & s & Hs & _)]; rewrite Hs; congruence.
  - intros arguments s Hurl.
    destruct (configure_connection_closed P arguments s w Hurl) as (w' & E & _ & _ & Hc).
    rewrite E. simpl snd. rewrite Hc. clear E Hc.
    set (c := mkClient (allocated w) (rstrip "/" s) _ _ VNone).
    assert (Hfresh : forall c', instance c' = allocated w ->
              forall old, reachable P w -> scada_client w = Some old ->
                          instance old <> instance c').
    { intros c' Hi old Hr Hold.
      destruct (reachable_client_ok P w Hr old Hold) as [Hlt _]. lia. }
    destruct (guest_mode c) eqn:Hg.
    + exists c. repeat split; auto.
    + destruct (login_token (remote P (wire w) (login_request c))) as [tok |] eqn:Ht.
      * exists (with_token c tok). repeat split; auto.
      * exists c. repeat split; auto.
  - intros arguments Hbad.
    destruct (configure_connection_rejected P arguments w Hbad) as (e & E).
    rewrite E. reflexivity.
Qed.

(** C8.  [configure_connection] with the string [base_url] stores it without
    its trailing slashes; every client of every reachable world has a
    [base_url] that does not end with a slash; and no request of the
    protocol layer changes the [base_url] of the client object that is
    configured. *)
Theorem stored_base_url_has_no_trailing_slash :
  (forall w arguments s,
      lookup "base_url" arguments = Some (VStr s) ->
      exists c k,
        scada_client (snd (call_tool P "configure_connection" arguments w)) = Some c /\
        base_url c = rstrip "/" s /\
        s = base_url c ++ slashes k /\
        ends_with_slash (base_url c) = false) /\
  (forall w c,
      reachable P w -> scada_client w = Some c ->
      ends_with_slash (base_url c) = false) /\
  (forall w i c c',
      reachable P w ->
      scada_client w = Some c ->
      scada_client (serve P i w) = Some c' ->
      instance c' = instance c ->
      base_url c' = base_url c).
Proof.
  split; [| split].
  - intros w arguments s Hurl.
    destruct (configure_connection_closed P arguments s w Hurl) as (w' & E & _ & _ & Hc).
    destruct (rstrip_drops_slashes s) as [k Hk].
    rewrite E. simpl snd. rewrite Hc.
    eexists _, k. split; [reflexivity |].
    match goal with |- context [ match ?x with _ => _ end ] => destruct x end; simpl;
      (split; [reflexivity |]; split; [exact Hk | apply rstrip_no_trailing_slash]).
  - intros w c Hr Hc. apply (reachable_client_ok P w Hr c Hc).
  - intros w i c c' Hr Hc Hc' Hi.
    destruct (serve_step P i w) as [[Hs _] | (c2 & s & Hs & Hi2 & _)].
    + congruence.
    + rewrite Hs in Hc'. injection Hc' as <-.
      destruct (reachable_client_ok P w Hr c Hc) as [Hlt _]. lia.
Qed.

End Configuration.

(** ** The prompt [data_point_analysis] *)

Section Analysis.

Variable P : Platform.

Lemma bind_return {A B} (m : M A) (k : A -> M B) (w w' : World) (a : A) :
  m w = (Return a, w') -> bind m k w = k a w'.
Proof. intros E. unfold bind. rewrite E. reflexivity. Qed.

Lemma next_matching_none (n : Z) (sources : list value) :
  Forall (other_source n) sources -> next_matching sources n = inr VNone.
Proof.
  induction 1 as [| ds rest (d & -> & Hd) _ IH]; simpl; [reflexivity |].
  rewrite Hd. exact IH.
Qed.

Lemma next_matching_found (n : Z) (before after : list value) (d : dict) :
  Forall (other_source n) before ->
  eq_int (dict_get d "id" VNone) n = true ->
  next_matching (before ++ VDict d :: after) n = inr (VDict d).
Proof.
  intros Hb Hd. induction Hb as [| ds rest (d' & -> & Hd') _ IH]; simpl.
  - rewrite Hd. reflexivity.
  - rewrite Hd'. exact IH.
Qed.

(** A data source that matched has an [id], so it is not an empty dict. *)
Lemma matching_source_truthy (n : Z) (d : dict) :
  eq_int (dict_get d "id" VNone) n = true -> truthy (VDict d) = true.
Proof.
  destruct d as [| kv d]; [discriminate | reflexivity].
Qed.

Lemma truthy_ids_cons (d : dict) (rest : list value) :
  truthy_ids (VDict d :: rest) =
    if truthy (dict_get d "id" VNone)
    then dict_get d "id" VNone :: truthy_ids rest
    else truthy_ids rest.
Proof. reflexivity. Qed.

(** The loop, in closed form: one request per truthy id, in order, each
    answer stored under its id; the other points are passed over. *)
Lemma fetch_values_closed (c : ScadaLTSClient) (points : list value) :
  Forall plain_point points ->
  forall point_values w, exists w',
    fetch_values P c points point_values w =
      (Return (expected_values P c (truthy_ids points) (wire w) point_values), w') /\
    wire w' = (wire w ++ map (point_value_request P c) (truthy_ids points))%list.
Proof.
  induction 1 as [| dp rest (d & -> & Hd) _ IH]; intros pv w.
  - exists w. split; [reflexivity |]. simpl. rewrite app_nil_r. reflexivity.
  - rewrite truthy_ids_cons. cbn [fetch_values].
    rewrite (bind_return _ _ w w (dict_get d "id" VNone)) by reflexivity.
    destruct (truthy (dict_get d "id" VNone)) eqn:Ht.
    + destruct (get_point_value_closed P c (dict_get d "id" VNone) w)
        as (w1 & E1 & Hw1 & _).
      rewrite (bind_return _ _ _ _ _ E1).
      unfold store. rewrite (Hd eq_refl).
      rewrite (bind_return _ _ w1 w1 _) by reflexivity.
      destruct (IH (setitem pv (dict_get d "id" VNone)
                      (parsed_or VNone
                         (remote P (wire w) (point_value_request P c (dict_get d "id" VNone)))))
                   w1) as (w' & E & Hw).
      exists w'. rewrite E, Hw, Hw1. split.
      * reflexivity.
      * simpl. rewrite <- app_assoc. reflexivity.
    + apply IH.
Qed.

(** C9, amended.  With a client configured and [data_source_id] read as the
    integer [n]: when the data sources are a list of objects none of which
    has an id equal to [n], [data_point_analysis] returns the "not found"
    report having sent the data-sources request only.  When an object of the
    list has the id [n], the prompt sends the request of
    [get_data_points(n)] (which carries the [dataSourceId] filter only for
    [n] other than 0) and then, for each point whose id is truthy (present
    and not 0, False or empty), in order, one point-value request, storing
    the answer under the id; points whose id is absent or falsy are passed
    over. *)
Theorem data_point_analysis_fetches_truthy_ids
    (arguments : dict) (raw : value) (n : Z) (w : World) (c : ScadaLTSClient)
    (sources : list value) :
  scada_client w = Some c ->
  lookup "data_source_id" arguments = Some raw ->
  py_int P raw = inr n ->
  parsed_or (VList []) (remote P (wire w) (data_sources_request P c)) = VList sources ->
  (Forall (other_source n) sources ->
   exists w',
     get_prompt P "data_point_analysis" arguments w =
       (Return (prompt_result "Data source not found"
                  ("Data source with ID " ++ str_of_Z n ++ " not found.")), w') /\
     wire w' = (wire w ++ [data_sources_request P c])%list) /\
  (forall before d after points,
     sources = (before ++ VDict d :: after)%list ->
     Forall (other_source n) before ->
     eq_int (dict_get d "id" VNone) n = true ->
     parsed_or (VList [])
       (remote P (wire w ++ [data_sources_request P c])%list
               (data_points_request P c (VInt n))) = VList points ->
     Forall plain_point points ->
     let sent := (wire w ++ [data_sources_request P c;
                             data_points_request P c (VInt n)])%list in
     let point_values := expected_values P c (truthy_ids points) sent [] in
     exists w',
       get_prompt P "data_point_analysis" arguments w =
         (Return (prompt_result
                    ("Analysis of data source " ++ str_of_Z n)
                    ("# Data Source Analysis: " ++
                     py_str P (dict_get d "name" (VStr "Unknown")) ++ nl ++ nl ++
                     "## Data Source Details" ++ nl ++ json_dumps P (VDict d) ++ nl ++ nl ++
                     "## Data Points (" ++ str_of_Z (Z.of_nat (List.length points)) ++
                     " total)" ++ nl ++
                     json_dumps P (VList points) ++ nl ++ nl ++
                     "## Current Values" ++ nl ++
                     json_dumps_mapping P point_values ++ nl)), w') /\
       wire w' = (sent ++ map (point_value_request P c) (truthy_ids points))%list).
Proof.
  intros Hc Harg Hint Hsrc.
  destruct (get_data_sources_closed P c w) as (w1 & E1 & Hw1 & _).
  rewrite Hsrc in E1.
  split.
  - intros Hnone. exists w1. split; [| exact Hw1].
    unfold get_prompt.
    rewrite (bind_return _ _ w w (Some c)) by (unfold get_scada_client; rewrite Hc; reflexivity).
    change (String.eqb "data_point_analysis" "scada_system_overview") with false.
    change (String.eqb "data_point_analysis" "data_point_analysis") with true.
    cbv iota.
    rewrite (bind_return _ _ w w raw) by (unfold getitem; rewrite Harg; reflexivity).
    rewrite (bind_return _ _ w w n) by (rewrite Hint; reflexivity).
    rewrite (bind_return _ _ _ _ _ E1).
    rewrite (bind_return _ _ w1 w1 sources) by reflexivity.
    rewrite (bind_return _ _ w1 w1 VNone)
      by (rewrite (next_matching_none n sources Hnone); reflexivity).
    reflexivity.
  - intros before d after points -> Hbefore Hd Hpts Hplain sent point_values.
    destruct (get_data_points_closed P c (VInt n) w1) as (w2 & E2 & Hw2 & _).
    rewrite Hw1, Hpts in E2.
    assert (Hsent : wire w2 = sent).
    { rewrite Hw2, Hw1. unfold sent. rewrite <- app_assoc. reflexivity. }
    destruct (fetch_values_closed c points Hplain [] w2) as (w3 & E3 & Hw3).
    rewrite Hsent in E3, Hw3. fold point_values in E3.
    exists w3. split; [| exact Hw3].
    unfold get_prompt.
    rewrite (bind_return _ _ w w (Some c)) by (unfold get_scada_client; rewrite Hc; reflexivity).
    change (String.eqb "data_point_analysis" "scada_system_overview") with false.
    change (String.eqb "data_point_analysis" "data_point_analysis") with true.
    cbv iota.
    rewrite (bind_return _ _ w w raw) by (unfold getitem; rewrite Harg; reflexivity).
    rewrite (bind_return _ _ w w n) by (rewrite Hint; reflexivity).
    rewrite (bind_return _ _ _ _ _ E1).
    rewrite (bind_return _ _ w1 w1 (before ++ VDict d :: after)%list) by reflexivity.
    rewrite (bind_return _ _ w1 w1 (VDict d))
      by (rewrite (next_matching_found n before after d Hbefore Hd); reflexivity).
    rewrite (matching_source_truthy n d Hd). cbn [negb].
    rewrite (bind_return _ _ _ _ _ E2).
    rewrite (bind_return _ _ w2 w2 points) by reflexivity.
    rewrite (bind_return _ _ _ _ _ E3).
    reflexivity.
Qed.

End Analysis.

(** ** The model on the sample platform *)

Example str_of_Z_42 : str_of_Z 42 = "42".
Proof. reflexivity. Qed.

Example str_of_Z_negative : str_of_Z (-7) = "-7".
Proof. reflexivity. Qed.

Example rstrip_trailing : rstrip "/" "http://h/Scada-LTS//" = "http://h/Scada-LTS".
Proof. reflexivity. Qed.

Example rstrip_inner : rstrip "/" "a/b" = "a/b".
Proof. reflexivity. Qed.

Example lower_mixed : lower "TrUe" = "true".
Proof. reflexivity. Qed.

Example setitem_true_is_one :
  setitem [(VInt 1, VStr "a")] (VBool true) (VStr "b") = [(VInt 1, VStr "b")].
Proof. reflexivity. Qed.

Example get_point_value_tool :
  fst (call_tool Sample.platform "get_point_value" [("point_id", VInt 7)]
         (Sample.configured Sample.guest))
  = Return (text_result ("Point 7 value:" ++ nl ++ "<json>")).
Proof. reflexivity. Qed.

Example set_point_value_request :
  wire (snd (set_point_value Sample.platform Sample.guest (VInt 42) (VInt 7)
               (Sample.configured Sample.guest)))
  = [mkRequest POST "http://scada/api/point-values/42/set"
       (Some [("Content-Type", "application/json")])
       (Some (VDict [("value", VInt 7)]))].
Proof. reflexivity. Qed.

Example get_alarms_all :
  map url (wire (snd (get_alarms Sample.platform Sample.guest (VBool false)
                        (Sample.configured Sample.guest))))
  = ["http://scada/api/alarms"].
Proof. reflexivity. Qed.

Example get_alarms_active :
  map url (wire (snd (get_alarms Sample.platform Sample.guest (VBool true)
                        (Sample.configured Sample.guest))))
  = ["http://scada/api/alarms?active=true"].
Proof. reflexivity. Qed.

Example get_system_status_503 :
  fst (get_system_status Sample.platform Sample.guest (Sample.configured Sample.guest))
  = Return (VDict [("status", VStr "unknown"); ("error", VStr "HTTP 503")]).
Proof. reflexivity. Qed.

Example missing_point_id_is_reported :
  fst (call_tool Sample.platform "get_point_value" [] (Sample.configured Sample.guest))
  = Return (text_result "Error executing get_point_value: 'point_id'").
Proof. reflexivity. Qed.

Example prompt_before_configuration :
  get_prompt Sample.platform "data_point_analysis" [] initial
  = (Return (prompt_result "SCADA-LTS client not configured"
               "Please configure SCADA-LTS connection first using the configure_connection tool."),
     initial).
Proof. reflexivity. Qed.

(** ** Instances and counterexamples *)

(** C1: the failing input, run. *)
Lemma get_prompt_missing_argument_raises_witness :
  scada_client (Sample.configured Sample.guest) = Some Sample.guest /\
  get_prompt Sample.platform "data_point_analysis" [] (Sample.configured Sample.guest)
  = (Raise (KeyError "data_source_id"), Sample.configured Sample.guest).
Proof.
  split; [reflexivity |].
  apply (get_prompt_missing_argument_raises Sample.platform
           (Sample.configured Sample.guest) Sample.guest).
  reflexivity.
Defined.

Lemma unconfigured_tool_call_is_advisory_witness :
  "get_alarms" <> "configure_connection" /\
  scada_client initial = None /\
  call_tool Sample.platform "get_alarms" [("active_only", VBool false)] initial
  = (Return (text_result not_configured_text), initial).
Proof.
  split; [discriminate |]. split; [reflexivity |].
  apply (unconfigured_tool_call_is_advisory Sample.platform "get_alarms"
           [("active_only", VBool false)] initial).
  - discriminate.
  - reflexivity.
Defined.

Lemma authenticate_guest_or_login_witness :
  scada_client (Sample.configured Sample.operator) = Some Sample.operator /\
  lookup "base_url" [("base_url", VStr "http://scada/")] = Some (VStr "http://scada/") /\
  (exists ok w',
      authenticate Sample.platform Sample.operator (Sample.configured Sample.operator)
      = (Return ok, w')) /\
  (exists w',
      call_tool Sample.platform "configure_connection" [("base_url", VStr "http://scada/")]
        initial
      = (Return (text_result
                   "Connection configured for http://scada/. Authentication: successful"),
         w')).
Proof.
  split; [reflexivity |]. split; [reflexivity |].
  split.
  - destruct (authenticate_guest_or_login Sample.platform Sample.operator
                (Sample.configured Sample.operator)) as [H _].
    destruct (H eq_refl) as (ok & w' & E & _). exists ok, w'. exact E.
  - destruct (authenticate_guest_or_login Sample.platform Sample.operator initial)
      as [_ H].
    destruct (H [("base_url", VStr "http://scada/")] "http://scada/"
                eq_refl eq_refl eq_refl) as (c & w' & E & _).
    exists w'. exact E.
Defined.

(** C5 as stated fails before configuration: the unknown name gets the
    advisory text, not "Unknown tool: unknown_tool". *)
Lemma unknown_tool_before_configuration :
  ~ In "unknown_tool" list_tools /\
  call_tool Sample.platform "unknown_tool" [] initial
  = (Return (text_result not_configured_text), initial) /\
  fst (call_tool Sample.platform "unknown_tool" [] initial)
  <> Return (text_result "Unknown tool: unknown_tool").
Proof.
  split; [| split].
  - simpl. intros H. repeat (destruct H as [H | H]; [discriminate H |]). exact H.
  - reflexivity.
  - simpl. discriminate.
Qed.

Lemma unknown_tool_when_configured_witness :
  scada_client (Sample.configured Sample.guest) = Some Sample.guest /\
  ~ In "unknown_tool" list_tools /\
  call_tool Sample.platform "unknown_tool" [] (Sample.configured Sample.guest)
  = (Return (text_result "Unknown tool: unknown_tool"), Sample.configured Sample.guest).
Proof.
  assert (Hout : ~ In "unknown_tool" list_tools).
  { simpl. intros H. repeat (destruct H as [H | H]; [discriminate H |]). exact H. }
  split; [reflexivity |]. split; [exact Hout |].
  apply (unknown_tool_when_configured Sample.platform "unknown_tool" []
           (Sample.configured Sample.guest) Sample.guest eq_refl Hout).
Defined.



(** C7 as stated fails on a [configure_connection] call without [base_url]:
    the call is answered with an error text and the client, token included,
    stays. *)
Lemma configure_connection_without_base_url_keeps_client :
  call_tool Sample.platform "configure_connection" [("username", VStr "op")]
    (Sample.configured (with_token Sample.operator (VStr "t0")))
  = (Return (text_result "Error executing configure_connection: 'base_url'"),
     Sample.configured (with_token Sample.operator (VStr "t0"))) /\
  scada_client
    (serve Sample.platform (InvokeTool "configure_connection" [("username", VStr "op")])
       (Sample.configured (with_token Sample.operator (VStr "t0"))))
  = Some (with_token Sample.operator (VStr "t0")).
Proof. split; reflexivity. Qed.

Lemma only_configure_connection_replaces_client_witness :
  "get_alarms" <> "configure_connection" /\
  lookup "base_url" Sample.credentials = Some (VStr "http://scada/") /\
  scada_client (snd (call_tool Sample.platform "get_alarms" []
                       (Sample.configured Sample.guest)))
  = Some Sample.guest /\
  exists c,
    scada_client (snd (call_tool Sample.platform "configure_connection" Sample.credentials
                         (Sample.configured Sample.guest))) = Some c /\
    instance c = 1%nat /\ base_url c = "http://scada".
Proof.
  pose proof (only_configure_connection_replaces_client Sample.platform
                (Sample.configured Sample.guest)) as (Hother & _ & _ & Hconf & _).
  split; [discriminate |]. split; [reflexivity |]. split.
  - apply (Hother "get_alarms" []). discriminate.
  - destruct (Hconf Sample.credentials "http://scada/" eq_refl)
      as (c & Hc & Hi & Hb & _).
    exists c. split; [exact Hc |]. split; [exact Hi | exact Hb].
Defined.

Lemma stored_base_url_has_no_trailing_slash_witness :
  lookup "base_url" Sample.credentials = Some (VStr "http://scada/") /\
  reachable Sample.platform Sample.logged_in /\
  (exists c, scada_client Sample.logged_in = Some c /\
             ends_with_slash (base_url c) = false) /\
  (exists c, scada_client (snd (call_tool Sample.platform "configure_connection"
                                  Sample.credentials initial)) = Some c /\
             "http://scada/" = base_url c ++ slashes 1).
Proof.
  assert (Hr : reachable Sample.platform Sample.logged_in).
  { apply (reachable_serve Sample.platform
             (InvokeTool "configure_connection" Sample.credentials) initial).
    apply reachable_initial. }
  pose proof (stored_base_url_has_no_trailing_slash Sample.platform) as (Hconf & Hinv & _).
  split; [reflexivity |]. split; [exact Hr |]. split.
  - eexists. split; [reflexivity |].
    apply (Hinv Sample.logged_in _ Hr). reflexivity.
  - destruct (Hconf initial Sample.credentials "http://scada/" eq_refl)
      as (c & k & Hc & Hb & _).
    exists c. split; [exact Hc |]. rewrite Hb. reflexivity.
Defined.

(** C9 as stated fails on a data point whose id is 0: the id is present, and
    no value is fetched for it. *)
Lemma data_point_with_id_zero_is_not_fetched :
  present_ids Sample.points = [VInt 0; VInt 7] /\
  parsed_or (VList [])
    (Sample.scada [] (data_points_request Sample.platform Sample.guest (VInt 1)))
  = VList Sample.points /\
  map url (wire (snd (get_prompt Sample.platform "data_point_analysis"
                        [("data_source_id", VStr "1")]
                        (Sample.configured Sample.guest))))
  = ["http://scada/api/datasources";
     "http://scada/api/datapoints?dataSourceId=1";
     "http://scada/api/point-values/7/latest"] /\
  ~ In (point_value_request Sample.platform Sample.guest (VInt 0))
       (wire (snd (get_prompt Sample.platform "data_point_analysis"
                     [("data_source_id", VStr "1")]
                     (Sample.configured Sample.guest)))).
Proof.
  split; [reflexivity |]. split; [reflexivity |]. split; [reflexivity |].
  simpl. intros H. repeat (destruct H as [H | H]; [discriminate H |]). exact H.
Qed.

Lemma data_point_analysis_fetches_truthy_ids_witness :
  scada_client (Sample.configured Sample.guest) = Some Sample.guest /\
  py_int Sample.platform (VStr "1") = inr 1 /\
  fst (get_prompt Sample.platform "data_point_analysis" [("data_source_id", VStr "2")]
         (Sample.configured Sample.guest))
  = Return (prompt_result "Data source not found" "Data source with ID 2 not found.") /\
  wire (snd (get_prompt Sample.platform "data_point_analysis"
               [("data_source_id", VStr "1")] (Sample.configured Sample.guest)))
  = [data_sources_request Sample.platform Sample.guest;
     data_points_request Sample.platform Sample.guest (VInt 1);
     point_value_request Sample.platform Sample.guest (VInt 7)].
Proof.
  split; [reflexivity |]. split; [reflexivity |]. split.
  - destruct (data_point_analysis_fetches_truthy_ids Sample.platform
                [("data_source_id", VStr "2")] (VStr "2") 2
                (Sample.configured Sample.guest) Sample.guest
                [VDict [("id", VInt 1); ("name", VStr "plc")]]
                eq_refl eq_refl eq_refl eq_refl) as [Hnone _].
    destruct Hnone as (w' & E & _).
    + constructor; [| constructor]. eexists. split; reflexivity.
    + rewrite E. reflexivity.
  - destruct (data_point_analysis_fetches_truthy_ids Sample.platform
                [("data_source_id", VStr "1")] (VStr "1") 1
                (Sample.configured Sample.guest) Sample.guest
                [VDict [("id", VInt 1); ("name", VStr "plc")]]
                eq_refl eq_refl eq_refl eq_refl) as [_ Hfound].
    destruct (Hfound [] [("id", VInt 1); ("name", VStr "plc")] [] Sample.points
                eq_refl (Forall_nil _) eq_refl eq_refl) as (w' & E & Hw).
    + constructor; [| constructor; [| constructor]];
        (eexists; split; [reflexivity | intros _; reflexivity]).
    + rewrite E. simpl snd. rewrite Hw. reflexivity.
Defined.

(** * Further properties *)

(** ** What goes on the wire *)

Lemma ret_quiet {A} (a : A) : quiet (ret a).
Proof. intros w. reflexivity. Qed.

Lemma raise_quiet {A} (e : exn) : quiet (@raise A e).
Proof. intros w. reflexivity. Qed.

Lemma lift_quiet {A} (r : exn + A) : quiet (lift r).
Proof. destruct r; intros w; reflexivity. Qed.

Lemma log_quiet (l : level) (msg : string) : quiet (log l msg).
Proof. intros w. reflexivity. Qed.

Lemma get_scada_client_quiet : quiet get_scada_client.
Proof. intros w. reflexivity. Qed.

Lemma bind_quiet {A B} (m : M A) (k : A -> M B) :
  quiet m -> (forall a, quiet (k a)) -> quiet (bind m k).
Proof.
  intros Hm Hk w. unfold bind. specialize (Hm w).
  destruct (m w) as [[a | e] w']; simpl in *.
  - rewrite Hk. exact Hm.
  - exact Hm.
Qed.

Lemma len_str_quiet (v : value) : quiet (len_str v).
Proof.
  unfold len_str. apply bind_quiet; [apply lift_quiet | intros n; apply ret_quiet].
Qed.

Lemma try_except_wire {A} (body : M A) (handler : exn -> M A) (w : World) :
  (forall e, quiet (handler e)) ->
  wire (snd (try_except body handler w)) = wire (snd (body w)).
Proof.
  intros Hh. unfold try_except.
  destruct (body w) as [[a | e] w']; simpl; [reflexivity | apply Hh].
Qed.

(** A capability followed by code that sends nothing. *)
Lemma one_request_then_quiet {A B} (m : M A) (k : A -> M B) (req : Request) (w : World) :
  one_request m req -> (forall a, quiet (k a)) ->
  wire (snd (bind m k w)) = (wire w ++ [req])%list.
Proof.
  intros Hm Hk. unfold bind. destruct (Hm w) as (a & w' & E & Hw & _).
  rewrite E, Hk. exact Hw.
Qed.

Lemma ret_sends_only (Q : Request -> Prop) {A} (a : A) : sends_only Q (ret a).
Proof. intros w. exists []. split; [symmetry; apply app_nil_r | constructor]. Qed.

Lemma quiet_sends_only (Q : Request -> Prop) {A} (m : M A) :
  quiet m -> sends_only Q m.
Proof.
  intros H w. exists []. rewrite H. split; [symmetry; apply app_nil_r | constructor].
Qed.

Lemma bind_sends_only (Q : Request -> Prop) {A B} (m : M A) (k : A -> M B) :
  sends_only Q m -> (forall a, sends_only Q (k a)) -> sends_only Q (bind m k).
Proof.
  intros Hm Hk w. unfold bind. destruct (Hm w) as (r1 & E1 & F1).
  destruct (m w) as [[a | e] w']; simpl in *.
  - destruct (Hk a w') as (r2 & E2 & F2).
    exists (r1 ++ r2)%list. rewrite E2, E1, app_assoc.
    split; [reflexivity | apply Forall_app; auto].
  - exists r1. auto.
Qed.

Lemma try_except_sends_only (Q : Request -> Prop) {A} (body : M A) (handler : exn -> M A) :
  sends_only Q body -> (forall e, sends_only Q (handler e)) ->
  sends_only Q (try_except body handler).
Proof.
  intros Hb Hh w. unfold try_except. destruct (Hb w) as (r1 & E1 & F1).
  destruct (body w) as [[a | e] w']; simpl in *.
  - exists r1. auto.
  - destruct (Hh e w') as (r2 & E2 & F2).
    exists (r1 ++ r2)%list. rewrite E2, E1, app_assoc.
    split; [reflexivity | apply Forall_app; auto].
Qed.

Lemma one_request_sends_only (Q : Request -> Prop) {A} (m : M A) (req : Request) :
  one_request m req -> Q req -> sends_only Q m.
Proof.
  intros Hm HQ w. destruct (Hm w) as (a & w' & E & Hw & _).
  exists [req]. rewrite E. split; [exact Hw | constructor; [exact HQ | constructor]].
Qed.

Lemma string_app_assoc (a b c : string) : (a ++ b) ++ c = a ++ b ++ c.
Proof. induction a as [| x a IH]; simpl; [reflexivity | rewrite IH; reflexivity]. Qed.

Create HintDb wire.
#[local] Hint Resolve ret_quiet raise_quiet lift_quiet log_quiet get_scada_client_quiet
  len_str_quiet : wire.

(** Code made of steps that send nothing sends nothing. *)
Ltac quiet :=
  repeat first
    [ apply bind_quiet; [ | intros ? ]
    | match goal with
      | |- quiet (if ?b then _ else _) => destruct b
      | |- quiet (match ?x with _ => _ end) => destruct x
      end
    | solve [ auto with wire ] ].

(** Evaluates the comparisons of two string literals in the goal. *)
Ltac dispatch :=
  repeat match goal with
         | |- context [ String.eqb ?a ?b ] =>
             let v := eval vm_compute in (String.eqb a b) in
             lazymatch v with
             | true => change (String.eqb a b) with true
             | false => change (String.eqb a b) with false
             end
         end;
  cbv iota.

Section Wire.

Variable P : Platform.

(** A tool call on a configured module: past the two guards. *)
Lemma call_tool_body_configured (name : string) (arguments : dict) (w : World)
    (c : ScadaLTSClient) :
  String.eqb name "configure_connection" = false ->
  scada_client w = Some c ->
  wire (snd (call_tool P name arguments w)) =
    (wire w ++ match tool_request P c name arguments with
               | Some req => [req]
               | None => []
               end)%list.
Proof.
  intros Hname Hc. unfold call_tool.
  rewrite try_except_wire by (intros e; apply ret_quiet).
  unfold call_tool_body, tool_request. rewrite Hname.
  rewrite (bind_return _ _ w w (Some c))
    by (unfold get_scada_client; rewrite Hc; reflexivity).
  destruct (String.eqb name "get_data_sources").
  { apply one_request_then_quiet; [apply get_data_sources_one | intros; quiet]. }
  destruct (String.eqb name "get_data_points").
  { cbv zeta. apply one_request_then_quiet; [apply get_data_points_one | intros; quiet]. }
  destruct (String.eqb name "get_point_value").
  { unfold getitem. destruct (lookup "point_id" arguments) as [pid |].
    - rewrite (bind_return _ _ w w pid) by reflexivity.
      apply one_request_then_quiet; [apply get_point_value_one | intros; quiet].
    - simpl. symmetry. apply app_nil_r. }
  destruct (String.eqb name "set_point_value").
  { unfold getitem. destruct (lookup "point_id" arguments) as [pid |].
    - rewrite (bind_return _ _ w w pid) by reflexivity.
      destruct (lookup "value" arguments) as [v |].
      + rewrite (bind_return _ _ w w v) by reflexivity.
        apply one_request_then_quiet; [apply set_point_value_one | intros; quiet].
      + simpl. symmetry. apply app_nil_r.
    - simpl. symmetry. apply app_nil_r. }
  destruct (String.eqb name "get_alarms").
  { cbv zeta. apply one_request_then_quiet; [apply get_alarms_one | intros; quiet]. }
  destruct (String.eqb name "acknowledge_alarm").
  { unfold getitem. destruct (lookup "alarm_id" arguments) as [aid |].
    - rewrite (bind_return _ _ w w aid) by reflexivity.
      apply one_request_then_quiet; [apply acknowledge_alarm_one | intros; quiet].
    - simpl. symmetry. apply app_nil_r. }
  destruct (String.eqb name "get_system_status").
  { apply one_request_then_quiet; [apply get_system_status_one | intros; quiet]. }
  simpl. symmetry. apply app_nil_r.
Qed.

(** A tool call while no client is configured: the advisory, nothing else. *)
Lemma call_tool_unconfigured (name : string) (arguments : dict) (w : World) :
  String.eqb name "configure_connection" = false ->
  scada_client w = None ->
  call_tool P name arguments w = (Return (text_result not_configured_text), w).
Proof.
  intros Hname Hnone. unfold call_tool, try_except, call_tool_body.
  rewrite Hname. unfold bind, get_scada_client. rewrite Hnone. reflexivity.
Qed.

(** X1.  Whatever the name, the arguments and the world, one tool call puts
    at most one request on the wire, after those already there. *)
Theorem call_tool_sends_at_most_one_request (name : string) (arguments : dict) (w : World) :
  exists reqs,
    wire (snd (call_tool P name arguments w)) = (wire w ++ reqs)%list /\
    (List.length reqs <= 1)%nat.
Proof.
  destruct (String.eqb name "configure_connection") eqn:Hname.
  - apply String.eqb_eq in Hname. subst name.
    destruct (lookup "base_url" arguments) as [[ | b | n | s | l | d] |] eqn:E;
      try (destruct (configure_connection_rejected P arguments w) as (e & Ee);
           [intros s' Hs'; congruence |];
           exists []; rewrite Ee; simpl; split; [symmetry; apply app_nil_r | lia]).
    destruct (configure_connection_closed P arguments s w E) as (w' & Ee & _ & Hw & _).
    rewrite Ee. simpl snd. rewrite Hw.
    match goal with |- context [ if ?g then _ else _ ] => destruct g end.
    + exists []. split; [symmetry; apply app_nil_r | simpl; lia].
    + eexists [_]. split; [reflexivity | simpl; lia].
  - destruct (scada_client w) as [c |] eqn:Hc.
    + rewrite (call_tool_body_configured name arguments w c Hname Hc).
      destruct (tool_request P c name arguments) as [req |].
      * exists [req]. split; [reflexivity | simpl; lia].
      * exists []. split; [reflexivity | simpl; lia].
    + rewrite (call_tool_unconfigured name arguments w Hname Hc).
      exists []. split; [symmetry; apply app_nil_r | simpl; lia].
Qed.

(** X2.  The REST contract of the data tools.  On a configured module, a
    tool call sends the request its row of the table gives, with the
    client's headers: GET /api/datasources, GET /api/datapoints with the
    optional filter, GET /api/point-values/{id}/latest, POST
    /api/point-values/{id}/set with the body {"value": v}, GET /api/alarms
    with [?active=true] unless [active_only] is given and falsy, POST
    /api/alarms/{id}/ack, GET /api/system/status; and it sends nothing when
    a required argument is missing or the name is unknown. *)
Theorem tool_calls_follow_rest_contract
    (name : string) (arguments : dict) (w : World) (c : ScadaLTSClient) :
  name <> "configure_connection" ->
  scada_client w = Some c ->
  wire (snd (call_tool P name arguments w)) =
    (wire w ++ match tool_request P c name arguments with
               | Some req => [req]
               | None => []
               end)%list /\
  (forall req, tool_request P c name arguments = Some req ->
               headers req = Some (_get_headers P c) /\
               exists path, url req = base_url c ++ path).
Proof.
  intros Hname Hc. apply String.eqb_neq in Hname. split.
  - apply call_tool_body_configured; assumption.
  - intros req. unfold tool_request.
    repeat match goal with
           | |- context [ if String.eqb name ?s then _ else _ ] =>
               destruct (String.eqb name s)
           | |- context [ match lookup ?k arguments with _ => _ end ] =>
               destruct (lookup k arguments)
           end;
      intros H; try discriminate H; injection H as <-;
      (split; [reflexivity |]); simpl.
    + eexists; reflexivity.
    + destruct (truthy (dict_get arguments "data_source_id" VNone));
        [rewrite string_app_assoc |]; eexists; reflexivity.
    + eexists; reflexivity.
    + eexists; reflexivity.
    + destruct (truthy (dict_get arguments "active_only" (VBool true)));
        [rewrite string_app_assoc |]; eexists; reflexivity.
    + eexists; reflexivity.
    + eexists; reflexivity.
Qed.

End Wire.

(** ** Arguments, reads and writes *)

#[local] Hint Resolve one_request_sends_only quiet_sends_only : wire.

(** Code made of steps that send only requests satisfying the predicate. *)
Ltac sends_only :=
  repeat first
    [ solve [ eapply one_request_sends_only; [ eauto with frame | reflexivity ] ]
    | solve [ apply quiet_sends_only; auto with wire ]
    | solve [ auto ]
    | apply bind_sends_only; [ | intros ? ]
    | match goal with
      | |- sends_only _ (if ?b then _ else _) => destruct b
      | |- sends_only _ (match ?x with _ => _ end) => destruct x
      end ].

Section Arguments.

Variable P : Platform.

Lemma get_prompt_unconfigured (name : string) (arguments : dict) (w : World) :
  scada_client w = None ->
  get_prompt P name arguments w =
    (Return (prompt_result "SCADA-LTS client not configured"
               "Please configure SCADA-LTS connection first using the configure_connection tool."),
     w).
Proof.
  intros Hnone. unfold get_prompt, bind, get_scada_client. rewrite Hnone. reflexivity.
Qed.

(** X3.  The [required] lists of the tool catalog are what the dispatcher
    enforces.  On a configured module, a call of a catalog tool that lacks a
    required key is answered "Error executing {name}: " followed by the
    KeyError of the first such key, and changes nothing; a call that has
    them all reaches the remote system with exactly one request
    ([configure_connection] apart, which sends its login only when it has
    credentials). *)
Theorem required_arguments_are_enforced
    (t : Tool) (arguments : dict) (w : World) (c : ScadaLTSClient) :
  In t tool_catalog ->
  scada_client w = Some c ->
  match first_missing (tool_required t) arguments with
  | Some k =>
      call_tool P (tool_name t) arguments w =
        (Return (text_result ("Error executing " ++ tool_name t ++ ": " ++
                              exn_str P (KeyError k))), w)
  | None =>
      tool_name t = "configure_connection" \/
      exists req,
        wire (snd (call_tool P (tool_name t) arguments w)) = (wire w ++ [req])%list
  end.
Proof.
  intros Hin Hc. unfold first_missing.
  assert (Hone : forall name,
            String.eqb name "configure_connection" = false ->
            (exists req, tool_request P c name arguments = Some req) ->
            exists req,
              wire (snd (call_tool P name arguments w)) = (wire w ++ [req])%list).
  { intros name Hname (req & Hreq). exists req.
    rewrite (call_tool_body_configured P name arguments w c Hname Hc), Hreq.
    reflexivity. }
  assert (Hstart : forall name : string,
            String.eqb name "configure_connection" = false ->
            forall k' : option ScadaLTSClient -> M CallToolResult,
              bind get_scada_client k' w = k' (Some c) w).
  { intros name _ k'. apply bind_return. unfold get_scada_client. rewrite Hc. reflexivity. }
  simpl in Hin.
  destruct Hin as [<- | [<- | [<- | [<- | [<- | [<- | [<- | [<- | []]]]]]]]];
    cbn [find tool_required tool_name].
  - right. apply Hone; [reflexivity |]. unfold tool_request. dispatch. eexists; reflexivity.
  - right. apply Hone; [reflexivity |]. unfold tool_request. dispatch. eexists; reflexivity.
  - destruct (lookup "point_id" arguments) as [pid |] eqn:E.
    + right. apply Hone; [reflexivity |]. unfold tool_request. dispatch. rewrite E.
      eexists; reflexivity.
    + unfold call_tool, call_tool_body. dispatch. unfold try_except at 1.
      rewrite (Hstart "get_point_value" eq_refl). cbv beta iota.
      unfold bind, getitem. rewrite E. reflexivity.
  - destruct (lookup "point_id" arguments) as [pid |] eqn:E.
    + destruct (lookup "value" arguments) as [v |] eqn:Ev.
      * right. apply Hone; [reflexivity |]. unfold tool_request. dispatch. rewrite E, Ev.
        eexists; reflexivity.
      * unfold call_tool, call_tool_body. dispatch. unfold try_except at 1.
        rewrite (Hstart "set_point_value" eq_refl). cbv beta iota.
        unfold bind, getitem. rewrite E, Ev. reflexivity.
    + unfold call_tool, call_tool_body. dispatch. unfold try_except at 1.
      rewrite (Hstart "set_point_value" eq_refl). cbv beta iota.
      unfold bind, getitem. rewrite E. reflexivity.
  - right. apply Hone; [reflexivity |]. unfold tool_request. dispatch. eexists; reflexivity.
  - destruct (lookup "alarm_id" arguments) as [aid |] eqn:E.
    + right. apply Hone; [reflexivity |]. unfold tool_request. dispatch. rewrite E.
      eexists; reflexivity.
    + unfold call_tool, call_tool_body. dispatch. unfold try_except at 1.
      rewrite (Hstart "acknowledge_alarm" eq_refl). cbv beta iota.
      unfold bind, getitem. rewrite E. reflexivity.
  - right. apply Hone; [reflexivity |]. unfold tool_request. dispatch. eexists; reflexivity.
  - destruct (lookup "base_url" arguments) as [u |] eqn:E.
    + left. reflexivity.
    + unfold call_tool, call_tool_body. dispatch.
      unfold try_except, bind, getitem. rewrite E. reflexivity.
Qed.

Lemma fetch_values_reads (c : ScadaLTSClient) (points : list value) :
  forall point_values,
    sends_only (fun r => method r = GET) (fetch_values P c points point_values).
Proof.
  induction points as [| dp rest IH]; intros pv; cbn [fetch_values]; sends_only.
Qed.

Lemma get_prompt_reads (name : string) (arguments : dict) :
  sends_only (fun r => method r = GET) (get_prompt P name arguments).
Proof.
  pose proof fetch_values_reads as Hloop.
  unfold get_prompt. cbv zeta. sends_only.
Qed.

(** X4.  Writes come from three tools only.  A prompt request, whatever its
    name, its arguments and the world, and however it ends, sends GET
    requests only; so does every tool call whose name is not
    [set_point_value], [acknowledge_alarm] or [configure_connection]. *)
Theorem only_three_tools_write (name : string) (arguments : dict) (w : World) :
  (exists reqs,
      wire (snd (get_prompt P name arguments w)) = (wire w ++ reqs)%list /\
      Forall (fun r => method r = GET) reqs) /\
  (name <> "set_point_value" ->
   name <> "acknowledge_alarm" ->
   name <> "configure_connection" ->
   exists reqs,
     wire (snd (call_tool P name arguments w)) = (wire w ++ reqs)%list /\
     Forall (fun r => method r = GET) reqs).
Proof.
  split; [apply get_prompt_reads |].
  intros Hset Hack Hconf.
  apply String.eqb_neq in Hset, Hack, Hconf.
  destruct (scada_client w) as [c |] eqn:Hc.
  - rewrite (call_tool_body_configured P name arguments w c Hconf Hc).
    eexists. split; [reflexivity |].
    unfold tool_request. rewrite Hset, Hack.
    repeat match goal with
           | |- context [ if String.eqb name ?s then _ else _ ] =>
               destruct (String.eqb name s)
           | |- context [ match lookup ?k arguments with _ => _ end ] =>
               destruct (lookup k arguments)
           end;
      repeat constructor.
  - rewrite (call_tool_unconfigured P name arguments w Hconf Hc).
    exists []. split; [symmetry; apply app_nil_r | constructor].
Qed.

(** X5.  Nothing is sent before the first configuration: in every world
    reachable from the module as loaded, if no client is configured then
    the wire is empty. *)
Theorem nothing_sent_before_configuration (w : World) :
  reachable P w -> scada_client w = None -> wire w = [].
Proof.
  induction 1 as [| i w Hr IH]; [reflexivity |].
  intros Hnone.
  assert (Hbefore : scada_client w = None).
  { destruct (serve_step P i w) as [[Hs _] | (c & s & Hs & _)]; congruence. }
  assert (Hsame : wire (serve P i w) = wire w); [| rewrite Hsame; auto].
  destruct i as [name arguments | name arguments]; simpl in *.
  - destruct (String.eqb name "configure_connection") eqn:Hname.
    + apply String.eqb_eq in Hname. subst name.
      destruct (lookup "base_url" arguments) as [[ | b | n | s | l | d] |] eqn:E;
        try (destruct (configure_connection_rejected P arguments w) as (e & Ee);
             [intros s' Hs'; congruence | rewrite Ee; reflexivity]).
      destruct (configure_connection_closed P arguments s w E) as (w' & Ee & _ & _ & Hc).
      rewrite Ee in Hnone. simpl in Hnone. congruence.
    + rewrite (call_tool_unconfigured P name arguments w Hname Hbefore). reflexivity.
  - rewrite (get_prompt_unconfigured name arguments w Hbefore). reflexivity.
Qed.

(** X6.  The two quiet answers of [get_prompt].  While no client is
    configured, every prompt request, even one without its required
    argument, returns the advisory message; on a configured module, a name
    that is neither of the two prompts returns "Unknown prompt: {name}".
    Neither sends a request or changes the world. *)
Theorem get_prompt_quiet_answers (name : string) (arguments : dict) (w : World) :
  (scada_client w = None ->
   get_prompt P name arguments w =
     (Return (prompt_result "SCADA-LTS client not configured"
                "Please configure SCADA-LTS connection first using the configure_connection tool."),
      w)) /\
  (forall c,
      scada_client w = Some c ->
      ~ In name list_prompts ->
      get_prompt P name arguments w =
        (Return (prompt_result "Unknown prompt" ("Unknown prompt: " ++ name)), w)).
Proof.
  split; [apply get_prompt_unconfigured |].
  intros c Hc Hout.
  assert (H1 : String.eqb name "scada_system_overview" = false)
    by (apply String.eqb_neq; intros ->; apply Hout; simpl; tauto).
  assert (H2 : String.eqb name "data_point_analysis" = false)
    by (apply String.eqb_neq; intros ->; apply Hout; simpl; tauto).
  unfold get_prompt.
  rewrite (bind_return _ _ w w (Some c))
    by (unfold get_scada_client; rewrite Hc; reflexivity).
  rewrite H1, H2. reflexivity.
Qed.

(** X7.  Argument errors of [get_prompt] leave the function before anything
    is sent.  On a configured module: a prompt of the catalog called
    without an argument it declares required raises the KeyError of that
    argument; [data_point_analysis] with a [data_source_id] that [int]
    rejects raises what [int] raises; [scada_system_overview] with an
    [include_alarms] that is not a string raises AttributeError.  In each
    case the world is as before. *)
Theorem prompt_argument_errors_raise_before_sending
    (arguments : dict) (w : World) (c : ScadaLTSClient) :
  scada_client w = Some c ->
  (forall p k,
      In p prompt_catalog ->
      first_missing (required_arguments p) arguments = Some k ->
      get_prompt P (prompt_name p) arguments w = (Raise (KeyError k), w)) /\
  (forall raw e,
      lookup "data_source_id" arguments = Some raw ->
      py_int P raw = inl e ->
      get_prompt P "data_point_analysis" arguments w = (Raise e, w)) /\
  (forall v,
      dict_get arguments "include_alarms" (VStr "false") = v ->
      (forall s, v <> VStr s) ->
      get_prompt P "scada_system_overview" arguments w =
        (Raise (AttributeError (type_name v) "lower"), w)).
Proof.
  intros Hc.
  assert (Hstart : forall k' : option ScadaLTSClient -> M GetPromptResult,
            bind get_scada_client k' w = k' (Some c) w).
  { intros k'. apply bind_return. unfold get_scada_client. rewrite Hc. reflexivity. }
  split; [| split].
  - intros p k Hin Hmiss. simpl in Hin. destruct Hin as [<- | [<- | []]].
    + discriminate Hmiss.
    + unfold first_missing in Hmiss. cbn [required_arguments prompt_arguments filter map
                                          argument_required argument_name find] in Hmiss.
      destruct (lookup "data_source_id" arguments) eqn:E; [discriminate |].
      injection Hmiss as <-.
      cbn [prompt_name]. unfold get_prompt. rewrite Hstart.
      dispatch. unfold bind, getitem. rewrite E. reflexivity.
  - intros raw e Hraw Hint.
    unfold get_prompt. rewrite Hstart. dispatch.
    rewrite (bind_return _ _ w w raw) by (unfold getitem; rewrite Hraw; reflexivity).
    unfold bind. rewrite Hint. reflexivity.
  - intros v Hv Hnot.
    unfold get_prompt. rewrite Hstart. dispatch.
    unfold bind. rewrite Hv.
    destruct v; try reflexivity. exfalso. apply (Hnot s). reflexivity.
Qed.

End Arguments.

(** ** Configuration, tokens and the data tools *)

Section Tools.

Variable P : Platform.

Lemma tool_request_headers (c : ScadaLTSClient) (name : string) (arguments : dict)
    (req : Request) :
  tool_request P c name arguments = Some req ->
  headers req = Some (_get_headers P c).
Proof.
  unfold tool_request.
  repeat match goal with
         | |- context [ if String.eqb name ?s then _ else _ ] =>
             destruct (String.eqb name s)
         | |- context [ match lookup ?k arguments with _ => _ end ] =>
             destruct (lookup k arguments)
         end;
    intros H; try discriminate H; injection H as <-; reflexivity.
Qed.

Lemma configured_start {A} (w : World) (c : ScadaLTSClient)
    (k : option ScadaLTSClient -> M A) :
  scada_client w = Some c -> bind get_scada_client k w = k (Some c) w.
Proof.
  intros Hc. apply bind_return. unfold get_scada_client. rewrite Hc. reflexivity.
Qed.

Lemma len_str_return (v : value) (n : nat) (w : World) :
  py_len v = inr n -> len_str v w = (Return (str_of_Z (Z.of_nat n)), w).
Proof. intros H. unfold len_str, bind. rewrite H. reflexivity. Qed.

Lemma len_str_raise (v : value) (e : exn) (w : World) :
  py_len v = inl e -> len_str v w = (Raise e, w).
Proof. intros H. unfold len_str, bind. rewrite H. reflexivity. Qed.

Lemma bind_raise {A B} (m : M A) (k : A -> M B) (w w' : World) (e : exn) :
  m w = (Raise e, w') -> bind m k w = (Raise e, w').
Proof. intros E. unfold bind. rewrite E. reflexivity. Qed.

Lemma get_alarms_closed (self : ScadaLTSClient) (a : value) (w : World) :
  exists w',
    get_alarms P self a w
    = (Return (parsed_or (VList []) (remote P (wire w) (alarms_request P self a))), w') /\
    wire w' = (wire w ++ [alarms_request P self a])%list /\
    scada_client w' = scada_client w /\
    allocated w' = allocated w.
Proof.
  unfold get_alarms, alarms_request.
  destruct (truthy a); apply fetch_json_closed.
Qed.

(** X10.  A failed login does not undo the configuration.  When
    [configure_connection] is given a string [base_url] and credentials and
    the login stores no token, the answer ends with "failed or guest mode"
    and the new client is installed all the same, without token; in guest
    mode (an empty username or password) the answer ends with "successful"
    and nothing is sent. *)
Theorem failed_login_still_configures (arguments : dict) (s : string) (w : World) :
  lookup "base_url" arguments = Some (VStr s) ->
  let c := mkClient (allocated w) (rstrip "/" s)
                    (dict_get arguments "username" (VStr EmptyString))
                    (dict_get arguments "password" (VStr EmptyString)) VNone in
  (guest_mode c = false ->
   login_token (remote P (wire w) (login_request c)) = None ->
   exists w',
     call_tool P "configure_connection" arguments w =
       (Return (text_result ("Connection configured for " ++ s ++
                             ". Authentication: failed or guest mode")), w') /\
     scada_client w' = Some c /\
     wire w' = (wire w ++ [login_request c])%list) /\
  (guest_mode c = true ->
   exists w',
     call_tool P "configure_connection" arguments w =
       (Return (text_result ("Connection configured for " ++ s ++
                             ". Authentication: successful")), w') /\
     scada_client w' = Some c /\
     wire w' = wire w).
Proof.
  intros Hurl c.
  destruct (configure_connection_closed P arguments s w Hurl) as (w' & E & _ & Hw & Hc).
  fold c in E, Hw, Hc. split.
  - intros Hg Hl. rewrite Hg, Hl in *. exists w'. auto.
  - intros Hg. rewrite Hg in *. exists w'. auto.
Qed.

(** X11.  The token of a login is carried by what follows.  After
    [configure_connection] with credentials whose login stored a truthy
    token, every data tool call sends its request with the headers
    Content-Type: application/json and Authorization: Bearer {token}, right
    after the login request. *)
Theorem token_is_carried_after_login
    (arguments : dict) (s : string) (w : World) (tok : value)
    (name : string) (arguments' : dict) (req : Request) :
  lookup "base_url" arguments = Some (VStr s) ->
  let c := mkClient (allocated w) (rstrip "/" s)
                    (dict_get arguments "username" (VStr EmptyString))
                    (dict_get arguments "password" (VStr EmptyString)) VNone in
  guest_mode c = false ->
  login_token (remote P (wire w) (login_request c)) = Some tok ->
  truthy tok = true ->
  name <> "configure_connection" ->
  tool_request P (with_token c tok) name arguments' = Some req ->
  wire (snd (call_tool P name arguments'
               (snd (call_tool P "configure_connection" arguments w))))
  = (wire w ++ [login_request c; req])%list /\
  headers req = Some [("Content-Type", "application/json");
                      ("Authorization", "Bearer " ++ py_str P tok)].
Proof.
  intros Hurl c Hg Hl Htok Hname Hreq.
  destruct (configure_connection_closed P arguments s w Hurl) as (w' & E & _ & Hw & Hc).
  fold c in E, Hw, Hc. rewrite Hg, Hl in *. rewrite E. simpl snd.
  apply String.eqb_neq in Hname.
  rewrite (call_tool_body_configured P name arguments' w' _ Hname Hc), Hreq, Hw.
  split.
  - rewrite <- app_assoc. reflexivity.
  - rewrite (tool_request_headers _ _ _ _ Hreq).
    unfold _get_headers. simpl session_token. rewrite Htok. reflexivity.
Qed.

(** X12.  The two writing tools.  On a configured module,
    [set_point_value] with [point_id] and [value] sends one POST to
    /api/point-values/{point_id}/set with the body {"value": value}, and
    [acknowledge_alarm] with [alarm_id] one POST to
    /api/alarms/{alarm_id}/ack without body; each answers "successful"
    exactly when the remote system answers with status 200, and "failed"
    for any other status and for a request that fails. *)
Theorem writing_tools_report_status_200 (arguments : dict) (w : World) (c : ScadaLTSClient) :
  scada_client w = Some c ->
  (forall point_id v,
      lookup "point_id" arguments = Some point_id ->
      lookup "value" arguments = Some v ->
      let req := mkRequest POST
                   (base_url c ++ "/api/point-values/" ++ py_str P point_id ++ "/set")
                   (Some (_get_headers P c)) (Some (VDict [("value", v)])) in
      exists w',
        call_tool P "set_point_value" arguments w =
          (Return (text_result
                     ("Setting point " ++ py_str P point_id ++ " to " ++ py_str P v ++ ": " ++
                      (if succeeded (remote P (wire w) req)
                       then "successful" else "failed"))), w') /\
        wire w' = (wire w ++ [req])%list) /\
  (forall alarm_id,
      lookup "alarm_id" arguments = Some alarm_id ->
      let req := mkRequest POST
                   (base_url c ++ "/api/alarms/" ++ py_str P alarm_id ++ "/ack")
                   (Some (_get_headers P c)) None in
      exists w',
        call_tool P "acknowledge_alarm" arguments w =
          (Return (text_result
                     ("Acknowledging alarm " ++ py_str P alarm_id ++ ": " ++
                      (if succeeded (remote P (wire w) req)
                       then "successful" else "failed"))), w') /\
        wire w' = (wire w ++ [req])%list).
Proof.
  intros Hc. split.
  - intros pid v Hpid Hv req.
    destruct (post_closed P req "Error setting point value: " w) as (w' & E & Hw & _).
    exists w'. split; [| exact Hw].
    unfold call_tool, call_tool_body. dispatch. unfold try_except at 1.
    rewrite (configured_start w c _ Hc). cbv beta iota.
    rewrite (bind_return _ _ w w pid) by (unfold getitem; rewrite Hpid; reflexivity).
    rewrite (bind_return _ _ w w v) by (unfold getitem; rewrite Hv; reflexivity).
    rewrite (bind_return _ _ w w' (succeeded (remote P (wire w) req))) by exact E.
    reflexivity.
  - intros aid Haid req.
    destruct (post_closed P req "Error acknowledging alarm: " w) as (w' & E & Hw & _).
    exists w'. split; [| exact Hw].
    unfold call_tool, call_tool_body. dispatch. unfold try_except at 1.
    rewrite (configured_start w c _ Hc). cbv beta iota.
    rewrite (bind_return _ _ w w aid) by (unfold getitem; rewrite Haid; reflexivity).
    rewrite (bind_return _ _ w w' (succeeded (remote P (wire w) req))) by exact E.
    reflexivity.
Qed.

(** X13.  The [get_point_value] tool cannot tell a null reading from a
    failure.  On a configured module, with [point_id] given, the answer is
    "Could not retrieve value for point {point_id}" exactly when the client
    returned None: for a request that fails, for a status other than 200,
    for a body that does not parse, and also for a 200 answer whose body is
    the JSON null.  Any other value is printed after "Point {point_id}
    value:". *)
Theorem get_point_value_reports_null_as_failure
    (arguments : dict) (w : World) (c : ScadaLTSClient) (point_id : value) :
  scada_client w = Some c ->
  lookup "point_id" arguments = Some point_id ->
  let v := parsed_or VNone (remote P (wire w) (point_value_request P c point_id)) in
  (v = VNone ->
   fst (call_tool P "get_point_value" arguments w) =
     Return (text_result ("Could not retrieve value for point " ++ py_str P point_id))) /\
  (v <> VNone ->
   fst (call_tool P "get_point_value" arguments w) =
     Return (text_result ("Point " ++ py_str P point_id ++ " value:" ++ nl ++
                          json_dumps P v))) /\
  (forall r,
      remote P (wire w) (point_value_request P c point_id) = Responds r ->
      status_code r = 200 -> json r = inr VNone -> v = VNone).
Proof.
  intros Hc Hpid v.
  destruct (get_point_value_closed P c point_id w) as (w' & E & _).
  fold v in E.
  assert (Hrun : call_tool P "get_point_value" arguments w =
                 (Return (text_result
                            (match v with
                             | VNone => "Could not retrieve value for point " ++
                                        py_str P point_id
                             | _ => "Point " ++ py_str P point_id ++ " value:" ++ nl ++
                                    json_dumps P v
                             end)), w')).
  { unfold call_tool, call_tool_body. dispatch. unfold try_except at 1.
    rewrite (configured_start w c _ Hc). cbv beta iota.
    rewrite (bind_return _ _ w w point_id) by (unfold getitem; rewrite Hpid; reflexivity).
    rewrite (bind_return _ _ w w' v) by exact E.
    destruct v; reflexivity. }
  rewrite Hrun. simpl fst. split; [| split].
  - intros ->. reflexivity.
  - intros Hv. destruct v; try reflexivity. congruence.
  - intros r Hr Hs Hj. unfold v, parsed_or. rewrite Hr, Hs, Hj. reflexivity.
Qed.

(** X14.  The [get_data_sources] tool.  On a configured module the call
    sends one request.  When the client returns a JSON list the answer is
    "Found {n} data sources:" with the length of the list; a request that
    fails and a status other than 200 therefore read "Found 0 data
    sources:", exactly as an empty list does.  When a 200 answer carries a
    body [len] does not accept (a number, a boolean, null), the answer is
    the error text of that TypeError. *)
Theorem get_data_sources_tool_counts
    (arguments : dict) (w : World) (c : ScadaLTSClient) :
  scada_client w = Some c ->
  let o := remote P (wire w) (data_sources_request P c) in
  wire (snd (call_tool P "get_data_sources" arguments w))
  = (wire w ++ [data_sources_request P c])%list /\
  (forall l,
      parsed_or (VList []) o = VList l ->
      fst (call_tool P "get_data_sources" arguments w) =
        Return (text_result ("Found " ++ str_of_Z (Z.of_nat (List.length l)) ++
                             " data sources:" ++ nl ++ json_dumps P (VList l)))) /\
  (succeeded o = false ->
   fst (call_tool P "get_data_sources" arguments w) =
     Return (text_result ("Found 0 data sources:" ++ nl ++ json_dumps P (VList [])))) /\
  (forall e,
      py_len (parsed_or (VList []) o) = inl e ->
      fst (call_tool P "get_data_sources" arguments w) =
        Return (text_result ("Error executing get_data_sources: " ++ exn_str P e))).
Proof.
  intros Hc o.
  destruct (get_data_sources_closed P c w) as (w' & E & Hw & _). fold o in E.
  assert (Hlist : forall l,
            parsed_or (VList []) o = VList l ->
            fst (call_tool P "get_data_sources" arguments w) =
              Return (text_result ("Found " ++ str_of_Z (Z.of_nat (List.length l)) ++
                                   " data sources:" ++ nl ++ json_dumps P (VList l)))).
  { intros l Hl. rewrite Hl in E.
    unfold call_tool, call_tool_body. dispatch. unfold try_except at 1.
    rewrite (configured_start w c _ Hc). cbv beta iota.
    rewrite (bind_return _ _ w w' (VList l)) by exact E.
    rewrite (bind_return _ _ w' w' _ (len_str_return (VList l) _ w' eq_refl)).
    reflexivity. }
  split; [| split; [| split]].
  - rewrite (call_tool_body_configured P "get_data_sources" arguments w c eq_refl Hc).
    reflexivity.
  - exact Hlist.
  - intros Hfail. apply (Hlist []). unfold parsed_or, succeeded in *.
    destruct o as [e | r]; [reflexivity |]. rewrite Hfail. reflexivity.
  - intros e He.
    unfold call_tool, call_tool_body. dispatch. unfold try_except at 1.
    rewrite (configured_start w c _ Hc). cbv beta iota.
    rewrite (bind_return _ _ w w' _ E).
    rewrite (bind_raise _ _ w' w' e (len_str_raise _ e w' He)).
    reflexivity.
Qed.

End Tools.

(** ** The prompts, further *)

Section Prompts.

Variable P : Platform.

Lemma next_matching_not_object (n : Z) (before after : list value) (x : value) :
  Forall (other_source n) before ->
  (forall d, x <> VDict d) ->
  next_matching (before ++ x :: after) n = inl (AttributeError (type_name x) "get").
Proof.
  intros Hb Hx. induction Hb as [| ds rest (d' & -> & Hd') _ IH]; simpl.
  - destruct x; try reflexivity. exfalso. apply (Hx d). reflexivity.
  - rewrite Hd'. exact IH.
Qed.

(** X8.  Data of the remote system can make [data_point_analysis] raise.
    On a configured module with a [data_source_id] that [int] accepts: when
    the data sources answer cannot be iterated (a 200 answer with a number,
    a boolean or null), the prompt raises that TypeError; when it can and
    an element that is not an object comes before any element with the
    requested id, the prompt raises AttributeError.  In both cases the data
    sources request is the only one sent. *)
Theorem data_point_analysis_raises_on_remote_data
    (arguments : dict) (raw : value) (n : Z) (w : World) (c : ScadaLTSClient) :
  scada_client w = Some c ->
  lookup "data_source_id" arguments = Some raw ->
  py_int P raw = inr n ->
  let data_sources := parsed_or (VList []) (remote P (wire w) (data_sources_request P c)) in
  (forall e,
      py_iter data_sources = inl e ->
      fst (get_prompt P "data_point_analysis" arguments w) = Raise e /\
      wire (snd (get_prompt P "data_point_analysis" arguments w))
      = (wire w ++ [data_sources_request P c])%list) /\
  (forall before x after,
      py_iter data_sources = inr (before ++ x :: after)%list ->
      Forall (other_source n) before ->
      (forall d, x <> VDict d) ->
      fst (get_prompt P "data_point_analysis" arguments w)
      = Raise (AttributeError (type_name x) "get") /\
      wire (snd (get_prompt P "data_point_analysis" arguments w))
      = (wire w ++ [data_sources_request P c])%list).
Proof.
  intros Hc Hraw Hint data_sources.
  destruct (get_data_sources_closed P c w) as (w1 & E1 & Hw1 & _).
  fold data_sources in E1.
  assert (Hrun : get_prompt P "data_point_analysis" arguments w =
                 (sources <- lift (py_iter data_sources);;
                  target_ds <- lift (next_matching sources n);;
                  if negb (truthy target_ds) then
                    ret (prompt_result "Data source not found"
                           ("Data source with ID " ++ str_of_Z n ++ " not found."))
                  else
                    data_points <- get_data_points P c (VInt n);;
                    points <- lift (py_iter data_points);;
                    point_values <- fetch_values P c points [];;
                    title <- lift (py_get target_ds "name" (VStr "Unknown"));;
                    n_points <- len_str data_points;;
                    ret (prompt_result
                           ("Analysis of data source " ++ str_of_Z n)
                           ("# Data Source Analysis: " ++ py_str P title ++ nl ++ nl ++
                            "## Data Source Details" ++ nl ++ json_dumps P target_ds ++
                            nl ++ nl ++
                            "## Data Points (" ++ n_points ++ " total)" ++ nl ++
                            json_dumps P data_points ++ nl ++ nl ++
                            "## Current Values" ++ nl ++
                            json_dumps_mapping P point_values ++ nl))) w1).
  { unfold get_prompt. rewrite (configured_start w c _ Hc). dispatch.
    rewrite (bind_return _ _ w w raw) by (unfold getitem; rewrite Hraw; reflexivity).
    rewrite (bind_return _ _ w w n) by (rewrite Hint; reflexivity).
    rewrite (bind_return _ _ _ _ _ E1). reflexivity. }
  rewrite Hrun. clear Hrun. split.
  - intros e He.
    rewrite (bind_raise _ _ w1 w1 e) by (rewrite He; reflexivity).
    split; [reflexivity | exact Hw1].
  - intros before x after Hit Hb Hx.
    rewrite (bind_return _ _ w1 w1 (before ++ x :: after)%list)
      by (rewrite Hit; reflexivity).
    rewrite (bind_raise _ _ w1 w1 (AttributeError (type_name x) "get"))
      by (rewrite (next_matching_not_object n before after x Hb Hx); reflexivity).
    split; [reflexivity | exact Hw1].
Qed.

(** X9.  The requests of [scada_system_overview].  On a configured module,
    with [include_alarms] absent or a string, and data sources and data
    points answers that [len] accepts, the prompt sends the data sources
    request, the unfiltered data points request and the status request, in
    this order.  It adds the request for the active alarms exactly when
    [include_alarms], lowered, is "true"; with any other string it returns
    the report of three sections. *)
Theorem overview_request_sequence
    (arguments : dict) (s : string) (w : World) (c : ScadaLTSClient)
    (n_sources n_points : nat) :
  scada_client w = Some c ->
  dict_get arguments "include_alarms" (VStr "false") = VStr s ->
  let sent1 := (wire w ++ [data_sources_request P c])%list in
  let sent2 := (sent1 ++ [data_points_request P c VNone])%list in
  let sent3 := (sent2 ++ [status_request P c])%list in
  let data_sources :=
    parsed_or (VList []) (remote P (wire w) (data_sources_request P c)) in
  let data_points :=
    parsed_or (VList []) (remote P sent1 (data_points_request P c VNone)) in
  py_len data_sources = inr n_sources ->
  py_len data_points = inr n_points ->
  exists system_status,
    let content :=
      "# SCADA-LTS System Overview" ++ nl ++ nl ++
      "## System Status" ++ nl ++ json_dumps P system_status ++ nl ++ nl ++
      "## Data Sources (" ++ str_of_Z (Z.of_nat n_sources) ++ " total)" ++ nl ++
      json_dumps P data_sources ++ nl ++ nl ++
      "## Data Points (" ++ str_of_Z (Z.of_nat n_points) ++ " total)" ++ nl ++
      json_dumps P data_points ++ nl in
    if String.eqb (lower s) "true" then
      let alarms :=
        parsed_or (VList []) (remote P sent3 (alarms_request P c (VBool true))) in
      wire (snd (get_prompt P "scada_system_overview" arguments w))
      = (sent3 ++ [alarms_request P c (VBool true)])%list /\
      (forall n_alarms,
          py_len alarms = inr n_alarms ->
          fst (get_prompt P "scada_system_overview" arguments w) =
            Return (prompt_result "SCADA-LTS system overview"
                      (content ++ nl ++ "## Active Alarms (" ++
                       str_of_Z (Z.of_nat n_alarms) ++ " total)" ++ nl ++
                       json_dumps P alarms ++ nl)))
    else
      wire (snd (get_prompt P "scada_system_overview" arguments w)) = sent3 /\
      fst (get_prompt P "scada_system_overview" arguments w) =
        Return (prompt_result "SCADA-LTS system overview" content).
Proof.
  intros Hc Hflag sent1 sent2 sent3 data_sources data_points Hls Hlp.
  destruct (get_data_sources_closed P c w) as (w1 & E1 & Hw1 & _).
  fold data_sources in E1.
  destruct (get_data_points_closed P c VNone w1) as (w2 & E2 & Hw2 & _).
  rewrite Hw1 in E2, Hw2. fold sent1 in E2, Hw2. fold data_points in E2. fold sent2 in Hw2.
  destruct (get_system_status_one P c w2) as (system_status & w3 & E3 & Hw3 & _).
  rewrite Hw2 in Hw3. fold sent3 in Hw3.
  destruct (get_alarms_closed P c (VBool true) w3) as (w4 & E4 & Hw4 & _).
  rewrite Hw3 in E4, Hw4.
  exists system_status. intros content.
  assert (Hrun : get_prompt P "scada_system_overview" arguments w =
                 (if String.eqb (lower s) "true" then
                    alarms <- get_alarms P c (VBool true);;
                    n_alarms <- len_str alarms;;
                    ret (prompt_result "SCADA-LTS system overview"
                           (content ++ nl ++ "## Active Alarms (" ++ n_alarms ++
                            " total)" ++ nl ++ json_dumps P alarms ++ nl))
                  else ret (prompt_result "SCADA-LTS system overview" content)) w3).
  { unfold get_prompt. rewrite (configured_start w c _ Hc). dispatch.
    rewrite Hflag.
    rewrite (bind_return _ _ w w (lower s)) by reflexivity.
    cbv zeta.
    rewrite (bind_return _ _ _ _ _ E1).
    rewrite (bind_return _ _ _ _ _ E2).
    rewrite (bind_return _ _ _ _ _ E3).
    rewrite (bind_return _ _ w3 w3 _ (len_str_return data_sources n_sources w3 Hls)).
    rewrite (bind_return _ _ w3 w3 _ (len_str_return data_points n_points w3 Hlp)).
    reflexivity. }
  rewrite Hrun. clear Hrun.
  destruct (String.eqb (lower s) "true").
  - cbv zeta. split.
    + rewrite (one_request_then_quiet _ _ _ w3 (get_alarms_one P c (VBool true)))
        by (intros; quiet).
      rewrite Hw3. reflexivity.
    + intros n_alarms Hla.
      rewrite (bind_return _ _ _ _ _ E4).
      rewrite (bind_return _ _ w4 w4 _ (len_str_return _ n_alarms w4 Hla)).
      reflexivity.
  - simpl. auto.
Qed.

Lemma rstrip_app_slashes (s : string) (k : nat) :
  rstrip "/" (s ++ slashes k) = rstrip "/" s.
Proof.
  induction s as [| a s IH]; simpl.
  - induction k as [| k IHk]; simpl; [reflexivity | rewrite IHk; reflexivity].
  - rewrite IH. reflexivity.
Qed.

Lemma rstrip_fixed (s : string) : ends_with_slash s = false -> rstrip "/" s = s.
Proof.
  induction s as [| a s IH]; simpl; [reflexivity |].
  destruct s as [| b s'].
  - simpl. intros ->. reflexivity.
  - intros H. rewrite (IH H). reflexivity.
Qed.

(** X15.  How the constructor normalises [base_url].  Trailing slashes do
    not matter: [base_url] followed by any number of slashes builds the same
    client as [base_url] itself.  A [base_url] that does not end with a
    slash is stored as it is.  A [base_url] made of slashes only is stored
    as the empty string, so that the client's requests go to the bare
    paths, such as [/api/datasources].  A [base_url] that is not a string
    raises AttributeError and builds nothing. *)
Theorem constructor_normalises_base_url (u p : value) (w : World) :
  (forall s k,
      ScadaLTSClient_init (VStr (s ++ slashes k)) u p w
      = ScadaLTSClient_init (VStr s) u p w) /\
  (forall s,
      ends_with_slash s = false ->
      exists w', ScadaLTSClient_init (VStr s) u p w
                 = (Return (mkClient (allocated w) s u p VNone), w')) /\
  (forall k,
      exists c w',
        ScadaLTSClient_init (VStr (slashes k)) u p w = (Return c, w') /\
        base_url c = EmptyString /\
        url (data_sources_request P c) = "/api/datasources") /\
  (forall v,
      (forall s, v <> VStr s) ->
      ScadaLTSClient_init v u p w = (Raise (AttributeError (type_name v) "rstrip"), w)).
Proof.
  split; [| split; [| split]].
  - intros s k. unfold ScadaLTSClient_init. rewrite rstrip_app_slashes. reflexivity.
  - intros s Hs. unfold ScadaLTSClient_init. rewrite (rstrip_fixed s Hs).
    eexists. reflexivity.
  - intros k. unfold ScadaLTSClient_init.
    assert (E : rstrip "/" (slashes k) = EmptyString)
      by apply (rstrip_app_slashes EmptyString k).
    rewrite E. eexists _, _. split; [reflexivity |]. split; reflexivity.
  - intros v Hv. destruct v; try reflexivity. exfalso. apply (Hv s). reflexivity.
Qed.

Lemma key_eqb_refl (k : value) : hashable k = true -> key_eqb k k = true.
Proof.
  destruct k as [ | b | n | s | l | d]; simpl; intros H; try discriminate H.
  - reflexivity.
  - apply Z.eqb_refl.
  - apply Z.eqb_refl.
  - apply String.eqb_refl.
Qed.

Lemma setitem_has_new_key (d : list (value * value)) (k v : value) :
  hashable k = true -> has_key (setitem d k v) k.
Proof.
  intros Hk. induction d as [| [k' v'] d IH]; simpl.
  - exists k, v. split; [left; reflexivity | apply key_eqb_refl; exact Hk].
  - destruct (key_eqb k' k) eqn:E.
    + exists k', v. split; [left; reflexivity | exact E].
    + destruct IH as (k1 & v1 & Hin & Heq). exists k1, v1. split; [right; exact Hin | exact Heq].
Qed.

Lemma setitem_keeps_keys (d : list (value * value)) (k v k0 : value) :
  has_key d k0 -> has_key (setitem d k v) k0.
Proof.
  induction d as [| [k' v'] d IH]; intros (k1 & v1 & Hin & Heq).
  - destruct Hin.
  - simpl. destruct Hin as [Hin | Hin].
    + injection Hin as <- <-.
      destruct (key_eqb k' k); eexists k', _; (split; [left; reflexivity | exact Heq]).
    + destruct (key_eqb k' k).
      * exists k1, v1. split; [right; exact Hin | exact Heq].
      * destruct (IH (ex_intro _ k1 (ex_intro _ v1 (conj Hin Heq)))) as (k2 & v2 & Hin2 & Heq2).
        exists k2, v2. split; [right; exact Hin2 | exact Heq2].
Qed.

Lemma setitem_length (d : list (value * value)) (k v : value) :
  (List.length (setitem d k v) <= S (List.length d))%nat.
Proof.
  induction d as [| [k' v'] d IH]; simpl; [lia |].
  destruct (key_eqb k' k); simpl; lia.
Qed.

Lemma expected_values_keys (c : ScadaLTSClient) (ids : list value) :
  Forall (fun i => hashable i = true) ids ->
  forall sent pv,
    (forall k, has_key pv k -> has_key (expected_values P c ids sent pv) k) /\
    (forall i, In i ids -> has_key (expected_values P c ids sent pv) i) /\
    (List.length (expected_values P c ids sent pv) <= List.length pv + List.length ids)%nat.
Proof.
  induction 1 as [| i ids Hi _ IH]; intros sent pv; simpl.
  - split; [auto |]. split; [intros i [] | lia].
  - match goal with
    | |- context [ expected_values P c ids ?sent' ?pv' ] =>
        destruct (IH sent' pv') as (Hold & Hnew & Hlen);
        pose proof (setitem_length pv i (parsed_or VNone (remote P sent (point_value_request P c i))))
    end.
    split; [| split].
    + intros k Hk. apply Hold. apply setitem_keeps_keys. exact Hk.
    + intros j [<- | Hj].
      * apply Hold. apply setitem_has_new_key. exact Hi.
      * apply Hnew. exact Hj.
    + lia.
Qed.

Lemma truthy_ids_hashable (points : list value) :
  Forall plain_point points -> Forall (fun i => hashable i = true) (truthy_ids points).
Proof.
  induction 1 as [| dp rest (d & -> & Hd) _ IH]; [constructor |].
  rewrite truthy_ids_cons.
  destruct (truthy (dict_get d "id" VNone)) eqn:Ht; [| exact IH].
  constructor; [apply Hd; reflexivity | exact IH].
Qed.

(** X16.  The mapping of current values.  When every data point is an
    object whose id, if truthy, is a number, a boolean or a string, the
    loop of [data_point_analysis] returns a mapping that has an entry for
    every truthy id, and no more entries than there are such ids: two
    points with the same id share one entry, though a value is requested
    for each. *)
Theorem point_values_cover_truthy_ids
    (c : ScadaLTSClient) (points : list value) (w : World) :
  Forall plain_point points ->
  exists point_values w',
    fetch_values P c points [] w = (Return point_values, w') /\
    wire w' = (wire w ++ map (point_value_request P c) (truthy_ids points))%list /\
    (forall i, In i (truthy_ids points) -> has_key point_values i) /\
    (List.length point_values <= List.length (truthy_ids points))%nat.
Proof.
  intros Hplain.
  destruct (fetch_values_closed P c points Hplain [] w) as (w' & E & Hw).
  destruct (expected_values_keys c (truthy_ids points) (truthy_ids_hashable points Hplain)
              (wire w) []) as (_ & Hnew & Hlen).
  eexists _, w'. split; [exact E |]. split; [exact Hw |]. split; [exact Hnew |].
  simpl in Hlen. exact Hlen.
Qed.

End Prompts.

(** ** Where requests go, and what is logged *)

Section Session2.

Variable P : Platform.


Lemma data_points_addressed (c : ScadaLTSClient) (i : value) :
  addressed_to (base_url c) (data_points_request P c i).
Proof.
  unfold addressed_to, data_points_request. simpl.
  destruct (truthy i); [rewrite string_app_assoc |]; eexists; reflexivity.
Qed.

Lemma alarms_addressed (c : ScadaLTSClient) (a : value) :
  addressed_to (base_url c) (alarms_request P c a).
Proof.
  unfold addressed_to, alarms_request. simpl.
  destruct (truthy a); [rewrite string_app_assoc |]; eexists; reflexivity.
Qed.

Lemma data_sources_addressed (c : ScadaLTSClient) :
  addressed_to (base_url c) (data_sources_request P c).
Proof. eexists; reflexivity. Qed.

Lemma point_value_addressed (c : ScadaLTSClient) (i : value) :
  addressed_to (base_url c) (point_value_request P c i).
Proof. eexists; reflexivity. Qed.

Lemma status_addressed (c : ScadaLTSClient) :
  addressed_to (base_url c) (status_request P c).
Proof. eexists; reflexivity. Qed.

Lemma login_addressed (c : ScadaLTSClient) :
  addressed_to (base_url c) (login_request c).
Proof. eexists; reflexivity. Qed.

#[local] Hint Resolve data_points_addressed alarms_addressed data_sources_addressed
  point_value_addressed status_addressed : wire.






Lemma fetch_json_logged (req : Request) (sentinel : value) (msg : string) (w : World) :
  logged (snd (try_except
                 (response <- send P req;;
                  if (status_code response =? 200)%Z then lift (json response)
                  else ret sentinel)
                 (fun e => log ERROR (msg ++ exn_str P e);; ret sentinel) w))
  = (logged w ++ error_record P msg (body_error (remote P (wire w) req)))%list.
Proof.
  unfold try_except, bind, send, body_error, error_record.
  destruct (remote P (wire w) req) as [e | r]; simpl; [reflexivity |].
  destruct (status_code r =? 200)%Z; simpl; [| symmetry; apply app_nil_r].
  destruct (json r) as [e | body]; simpl; [reflexivity | symmetry; apply app_nil_r].
Qed.

Lemma post_logged (req : Request) (msg : string) (w : World) :
  logged (snd (try_except
                 (response <- send P req;; ret (status_code response =? 200)%Z)
                 (fun e => log ERROR (msg ++ exn_str P e);; ret false) w))
  = (logged w ++ error_record P msg (transport_error (remote P (wire w) req)))%list.
Proof.
  unfold try_except, bind, send, transport_error, error_record.
  destruct (remote P (wire w) req) as [e | r]; simpl;
    [reflexivity | symmetry; apply app_nil_r].
Qed.

(** X18.  What the client logs.  Each of the seven capabilities writes one
    ERROR record, "Error ...: {exception}", exactly when its [try] block
    caught an exception: a request that failed or, for the capabilities
    that parse the body, a 200 answer whose body does not parse.  An answer
    with a status other than 200 is turned into the sentinel without any
    log record. *)
Theorem status_failures_are_not_logged (self : ScadaLTSClient) (w : World) :
  logged (snd (get_data_sources P self w))
  = (logged w ++ error_record P "Error getting data sources: "
       (body_error (remote P (wire w) (data_sources_request P self))))%list /\
  (forall i,
      logged (snd (get_data_points P self i w))
      = (logged w ++ error_record P "Error getting data points: "
           (body_error (remote P (wire w) (data_points_request P self i))))%list) /\
  (forall i,
      logged (snd (get_point_value P self i w))
      = (logged w ++ error_record P "Error getting point value: "
           (body_error (remote P (wire w) (point_value_request P self i))))%list) /\
  (forall i v,
      logged (snd (set_point_value P self i v w))
      = (logged w ++ error_record P "Error setting point value: "
           (transport_error (remote P (wire w) (set_point_request P self i v))))%list) /\
  (forall a,
      logged (snd (get_alarms P self a w))
      = (logged w ++ error_record P "Error getting alarms: "
           (body_error (remote P (wire w) (alarms_request P self a))))%list) /\
  (forall i,
      logged (snd (acknowledge_alarm P self i w))
      = (logged w ++ error_record P "Error acknowledging alarm: "
           (transport_error (remote P (wire w) (acknowledge_request P self i))))%list) /\
  logged (snd (get_system_status P self w))
  = (logged w ++ error_record P "Error getting system status: "
       (body_error (remote P (wire w) (status_request P self))))%list /\
  (forall o r,
      o = Responds r -> status_code r <> 200 ->
      body_error o = None /\ transport_error o = None).
Proof.
  split; [apply fetch_json_logged |].
  split; [intros i; unfold get_data_points, data_points_request;
          destruct (truthy i); apply fetch_json_logged |].
  split; [intros i; apply fetch_json_logged |].
  split; [intros i v; apply post_logged |].
  split; [intros a; unfold get_alarms, alarms_request;
          destruct (truthy a); apply fetch_json_logged |].
  split; [intros i; apply post_logged |].
  split.
  - unfold get_system_status, status_request, try_except, bind, send, body_error, error_record.
    destruct (remote P (wire w) _) as [e | r]; simpl; [reflexivity |].
    destruct (status_code r =? 200)%Z; simpl; [| symmetry; apply app_nil_r].
    destruct (json r) as [e | body]; simpl; [reflexivity | symmetry; apply app_nil_r].
  - intros o r -> Hs. unfold body_error, transport_error.
    apply Z.eqb_neq in Hs. rewrite Hs. split; reflexivity.
Qed.

End Session2.

(** ** Instances of the further properties *)

Example catalog_names : map tool_name tool_catalog = list_tools.
Proof. reflexivity. Qed.

Example prompt_names : map prompt_name prompt_catalog = list_prompts.
Proof. reflexivity. Qed.

Example overview_stops_at_a_number :
  fst (get_prompt Sample.plant_platform "scada_system_overview"
         [("include_alarms", VStr "True")] (Sample.configured Sample.visitor))
  = Raise (TypeError "len" "int") /\
  map url (wire (snd (get_prompt Sample.plant_platform "scada_system_overview"
                        [("include_alarms", VStr "True")]
                        (Sample.configured Sample.visitor))))
  = ["http://plant/api/datasources"; "http://plant/api/datapoints";
     "http://plant/api/system/status"].
Proof. split; reflexivity. Qed.

Example same_id_twice :
  fst (fetch_values Sample.platform Sample.guest
         [VDict [("id", VInt 7)]; VDict [("id", VInt 7)]] []
         (Sample.configured Sample.guest))
  = Return [(VInt 7, VDict [("value", VInt 21)])].
Proof. reflexivity. Qed.

Lemma tool_calls_follow_rest_contract_witness :
  "get_alarms" <> "configure_connection" /\
  scada_client (Sample.configured Sample.guest) = Some Sample.guest /\
  wire (snd (call_tool Sample.platform "get_alarms" [("active_only", VBool false)]
               (Sample.configured Sample.guest)))
  = [mkRequest GET "http://scada/api/alarms"
       (Some [("Content-Type", "application/json")]) None].
Proof.
  split; [discriminate |]. split; [reflexivity |].
  destruct (tool_calls_follow_rest_contract Sample.platform "get_alarms"
              [("active_only", VBool false)] (Sample.configured Sample.guest) Sample.guest)
    as [E _]; [discriminate | reflexivity |].
  rewrite E. reflexivity.
Defined.

Lemma required_arguments_are_enforced_witness :
  In (mkTool "set_point_value" "Set value of a settable data point"
        [mkProperty "point_id" (Some "integer") "ID of the data point to write to" None;
         mkProperty "value" None "Value to write (number, boolean, or string)" None]
        ["point_id"; "value"]) tool_catalog /\
  scada_client (Sample.configured Sample.guest) = Some Sample.guest /\
  call_tool Sample.platform "set_point_value" [("point_id", VInt 42)]
    (Sample.configured Sample.guest)
  = (Return (text_result "Error executing set_point_value: 'value'"),
     Sample.configured Sample.guest).
Proof.
  assert (Hin : In (mkTool "set_point_value" "Set value of a settable data point"
                      [mkProperty "point_id" (Some "integer")
                         "ID of the data point to write to" None;
                       mkProperty "value" None
                         "Value to write (number, boolean, or string)" None]
                      ["point_id"; "value"]) tool_catalog).
  { simpl. right. right. right. left. reflexivity. }
  split; [exact Hin |]. split; [reflexivity |].
  exact (required_arguments_are_enforced Sample.platform _ [("point_id", VInt 42)]
           (Sample.configured Sample.guest) Sample.guest Hin eq_refl).
Defined.

Lemma only_three_tools_write_witness :
  "get_data_points" <> "set_point_value" /\
  "get_data_points" <> "acknowledge_alarm" /\
  "get_data_points" <> "configure_connection" /\
  exists reqs,
    wire (snd (call_tool Sample.platform "get_data_points" [("data_source_id", VInt 1)]
                 (Sample.configured Sample.guest)))
    = (wire (Sample.configured Sample.guest) ++ reqs)%list /\
    Forall (fun r => method r = GET) reqs.
Proof.
  split; [discriminate |]. split; [discriminate |]. split; [discriminate |].
  destruct (only_three_tools_write Sample.platform "get_data_points"
              [("data_source_id", VInt 1)] (Sample.configured Sample.guest)) as [_ H].
  apply H; discriminate.
Defined.

Lemma nothing_sent_before_configuration_witness :
  reachable Sample.platform
    (serve Sample.platform (InvokeTool "get_alarms" []) initial) /\
  scada_client (serve Sample.platform (InvokeTool "get_alarms" []) initial) = None /\
  wire (serve Sample.platform (InvokeTool "get_alarms" []) initial) = [].
Proof.
  assert (Hr : reachable Sample.platform
                 (serve Sample.platform (InvokeTool "get_alarms" []) initial)).
  { apply reachable_serve. apply reachable_initial. }
  split; [exact Hr |]. split; [reflexivity |].
  apply (nothing_sent_before_configuration Sample.platform _ Hr). reflexivity.
Defined.

Lemma get_prompt_quiet_answers_witness :
  scada_client initial = None /\
  scada_client (Sample.configured Sample.guest) = Some Sample.guest /\
  ~ In "alarm_report" list_prompts /\
  fst (get_prompt Sample.platform "data_point_analysis" [] initial)
  = Return (prompt_result "SCADA-LTS client not configured"
              "Please configure SCADA-LTS connection first using the configure_connection tool.") /\
  get_prompt Sample.platform "alarm_report" [] (Sample.configured Sample.guest)
  = (Return (prompt_result "Unknown prompt" "Unknown prompt: alarm_report"),
     Sample.configured Sample.guest).
Proof.
  assert (Hout : ~ In "alarm_report" list_prompts).
  { simpl. intros H. repeat (destruct H as [H | H]; [discriminate H |]). exact H. }
  split; [reflexivity |]. split; [reflexivity |]. split; [exact Hout |]. split.
  - destruct (get_prompt_quiet_answers Sample.platform "data_point_analysis" [] initial)
      as [H _].
    rewrite (H eq_refl). reflexivity.
  - destruct (get_prompt_quiet_answers Sample.platform "alarm_report" []
                (Sample.configured Sample.guest)) as [_ H].
    exact (H Sample.guest eq_refl Hout).
Defined.

Lemma prompt_argument_errors_raise_before_sending_witness :
  scada_client (Sample.configured Sample.guest) = Some Sample.guest /\
  py_int Sample.platform (VStr "seven") = inl (ValueError "seven") /\
  get_prompt Sample.platform "data_point_analysis" [("data_source_id", VStr "seven")]
    (Sample.configured Sample.guest)
  = (Raise (ValueError "seven"), Sample.configured Sample.guest) /\
  get_prompt Sample.platform "scada_system_overview" [("include_alarms", VBool true)]
    (Sample.configured Sample.guest)
  = (Raise (AttributeError "bool" "lower"), Sample.configured Sample.guest).
Proof.
  split; [reflexivity |]. split; [reflexivity |]. split.
  - destruct (prompt_argument_errors_raise_before_sending Sample.platform
                [("data_source_id", VStr "seven")] (Sample.configured Sample.guest)
                Sample.guest eq_refl) as (_ & H & _).
    exact (H (VStr "seven") (ValueError "seven") eq_refl eq_refl).
  - destruct (prompt_argument_errors_raise_before_sending Sample.platform
                [("include_alarms", VBool true)] (Sample.configured Sample.guest)
                Sample.guest eq_refl) as (_ & _ & H).
    apply (H (VBool true) eq_refl). intros s. discriminate.
Defined.

Lemma data_point_analysis_raises_on_remote_data_witness :
  scada_client (Sample.configured Sample.visitor) = Some Sample.visitor /\
  py_iter (parsed_or (VList [])
             (Sample.plant [] (data_sources_request Sample.plant_platform Sample.visitor)))
  = inl (TypeError "iter" "int") /\
  fst (get_prompt Sample.plant_platform "data_point_analysis"
         [("data_source_id", VStr "1")] (Sample.configured Sample.visitor))
  = Raise (TypeError "iter" "int").
Proof.
  split; [reflexivity |]. split; [reflexivity |].
  destruct (data_point_analysis_raises_on_remote_data Sample.plant_platform
              [("data_source_id", VStr "1")] (VStr "1") 1
              (Sample.configured Sample.visitor) Sample.visitor
              eq_refl eq_refl eq_refl) as [H _].
  destruct (H (TypeError "iter" "int") eq_refl) as [E _]. exact E.
Defined.

Lemma overview_request_sequence_witness :
  scada_client (Sample.configured Sample.guest) = Some Sample.guest /\
  dict_get [("include_alarms", VStr "yes")] "include_alarms" (VStr "false") = VStr "yes" /\
  map url (wire (snd (get_prompt Sample.platform "scada_system_overview"
                        [("include_alarms", VStr "yes")]
                        (Sample.configured Sample.guest))))
  = ["http://scada/api/datasources"; "http://scada/api/datapoints";
     "http://scada/api/system/status"].
Proof.
  split; [reflexivity |]. split; [reflexivity |].
  destruct (overview_request_sequence Sample.platform [("include_alarms", VStr "yes")]
              "yes" (Sample.configured Sample.guest) Sample.guest 1 0
              eq_refl eq_refl eq_refl eq_refl) as (status & Hw & _).
  rewrite Hw. reflexivity.
Defined.

Lemma failed_login_still_configures_witness :
  lookup "base_url" [("base_url", VStr "http://nowhere"); ("username", VStr "op");
                     ("password", VStr "secret")] = Some (VStr "http://nowhere") /\
  exists w',
    call_tool Sample.platform "configure_connection"
      [("base_url", VStr "http://nowhere"); ("username", VStr "op");
       ("password", VStr "secret")] initial
    = (Return (text_result
                 "Connection configured for http://nowhere. Authentication: failed or guest mode"),
       w') /\
    scada_client w' = Some (mkClient 0 "http://nowhere" (VStr "op") (VStr "secret") VNone).
Proof.
  split; [reflexivity |].
  destruct (failed_login_still_configures Sample.platform
              [("base_url", VStr "http://nowhere"); ("username", VStr "op");
               ("password", VStr "secret")] "http://nowhere" initial eq_refl) as [H _].
  destruct (H eq_refl eq_refl) as (w' & E & Hc & _).
  exists w'. split; [exact E | exact Hc].
Defined.

Lemma token_is_carried_after_login_witness :
  lookup "base_url" Sample.plant_credentials = Some (VStr "http://plant") /\
  truthy (VStr "s3cr3t") = true /\
  "get_alarms" <> "configure_connection" /\
  map headers
    (wire (snd (call_tool Sample.plant_platform "get_alarms" []
                  (snd (call_tool Sample.plant_platform "configure_connection"
                          Sample.plant_credentials initial)))))
  = [None;
     Some [("Content-Type", "application/json"); ("Authorization", "Bearer s3cr3t")]].
Proof.
  split; [reflexivity |]. split; [reflexivity |]. split; [discriminate |].
  destruct (token_is_carried_after_login Sample.plant_platform Sample.plant_credentials
              "http://plant" initial (VStr "s3cr3t") "get_alarms" []
              (alarms_request Sample.plant_platform
                 (with_token (mkClient 0 "http://plant" (VStr "op") (VStr "secret") VNone)
                    (VStr "s3cr3t")) (VBool true))
              eq_refl eq_refl eq_refl eq_refl) as [Hw Hh];
    [discriminate | reflexivity |].
  rewrite Hw. reflexivity.
Defined.

Lemma writing_tools_report_status_200_witness :
  scada_client (Sample.configured Sample.visitor) = Some Sample.visitor /\
  exists w',
    call_tool Sample.plant_platform "set_point_value"
      [("point_id", VInt 42); ("value", VInt 7)] (Sample.configured Sample.visitor)
    = (Return (text_result "Setting point 42 to 7: successful"), w') /\
    wire w' = [mkRequest POST "http://plant/api/point-values/42/set"
                 (Some [("Content-Type", "application/json")])
                 (Some (VDict [("value", VInt 7)]))].
Proof.
  split; [reflexivity |].
  destruct (writing_tools_report_status_200 Sample.plant_platform
              [("point_id", VInt 42); ("value", VInt 7)]
              (Sample.configured Sample.visitor) Sample.visitor eq_refl) as [H _].
  destruct (H (VInt 42) (VInt 7) eq_refl eq_refl) as (w' & E & Hw).
  exists w'. split; [exact E | exact Hw].
Defined.

Lemma get_point_value_reports_null_as_failure_witness :
  scada_client (Sample.configured Sample.visitor) = Some Sample.visitor /\
  Sample.plant [] (point_value_request Sample.plant_platform Sample.visitor (VInt 42))
  = Responds (mkResponse 200 (inr VNone)) /\
  fst (call_tool Sample.plant_platform "get_point_value" [("point_id", VInt 42)]
         (Sample.configured Sample.visitor))
  = Return (text_result "Could not retrieve value for point 42").
Proof.
  split; [reflexivity |]. split; [reflexivity |].
  destruct (get_point_value_reports_null_as_failure Sample.plant_platform
              [("point_id", VInt 42)] (Sample.configured Sample.visitor) Sample.visitor
              (VInt 42) eq_refl eq_refl) as [H _].
  exact (H eq_refl).
Defined.

Lemma get_data_sources_tool_counts_witness :
  scada_client (Sample.configured Sample.visitor) = Some Sample.visitor /\
  scada_client (Sample.configured (mkClient 0 "http://nowhere" VNone VNone VNone))
  = Some (mkClient 0 "http://nowhere" VNone VNone VNone) /\
  fst (call_tool Sample.plant_platform "get_data_sources" []
         (Sample.configured Sample.visitor))
  = Return (text_result "Error executing get_data_sources: len: 'int'") /\
  fst (call_tool Sample.platform "get_data_sources" []
         (Sample.configured (mkClient 0 "http://nowhere" VNone VNone VNone)))
  = Return (text_result ("Found 0 data sources:" ++ nl ++ "<json>")).
Proof.
  split; [reflexivity |]. split; [reflexivity |]. split.
  - destruct (get_data_sources_tool_counts Sample.plant_platform []
                (Sample.configured Sample.visitor) Sample.visitor eq_refl)
      as (_ & _ & _ & H).
    exact (H (TypeError "len" "int") eq_refl).
  - destruct (get_data_sources_tool_counts Sample.platform []
                (Sample.configured (mkClient 0 "http://nowhere" VNone VNone VNone))
                (mkClient 0 "http://nowhere" VNone VNone VNone) eq_refl)
      as (_ & _ & H & _).
    exact (H eq_refl).
Defined.

Lemma constructor_normalises_base_url_witness :
  ends_with_slash "http://scada:8080/Scada-LTS" = false /\
  (exists w',
      ScadaLTSClient_init (VStr "http://scada:8080/Scada-LTS") VNone VNone initial
      = (Return (mkClient 0 "http://scada:8080/Scada-LTS" VNone VNone VNone), w')) /\
  ScadaLTSClient_init (VInt 8080) VNone VNone initial
  = (Raise (AttributeError "int" "rstrip"), initial).
Proof.
  destruct (constructor_normalises_base_url Sample.platform VNone VNone initial)
    as (_ & Hkeep & _ & Hbad).
  split; [reflexivity |]. split.
  - exact (Hkeep "http://scada:8080/Scada-LTS" eq_refl).
  - apply (Hbad (VInt 8080)). intros s. discriminate.
Defined.

Lemma point_values_cover_truthy_ids_witness :
  Forall plain_point [VDict [("id", VInt 7)]; VDict [("id", VInt 7)]] /\
  exists point_values w',
    fetch_values Sample.platform Sample.guest
      [VDict [("id", VInt 7)]; VDict [("id", VInt 7)]] [] (Sample.configured Sample.guest)
    = (Return point_values, w') /\
    List.length (wire w') = 2%nat /\
    (List.length point_values <= 2)%nat.
Proof.
  assert (Hplain : Forall plain_point [VDict [("id", VInt 7)]; VDict [("id", VInt 7)]]).
  { constructor; [| constructor; [| constructor]];
      (eexists; split; [reflexivity | intros _; reflexivity]). }
  split; [exact Hplain |].
  destruct (point_values_cover_truthy_ids Sample.platform Sample.guest
              [VDict [("id", VInt 7)]; VDict [("id", VInt 7)]]
              (Sample.configured Sample.guest) Hplain) as (pv & w' & E & Hw & _ & Hlen).
  exists pv, w'. split; [exact E |]. split; [rewrite Hw; reflexivity | exact Hlen].
Defined.


Lemma status_failures_are_not_logged_witness :
  Responds (mkResponse 503 (inl (HTTPError "no body")))
  = Responds (mkResponse 503 (inl (HTTPError "no body"))) /\
  status_code (mkResponse 503 (inl (HTTPError "no body"))) <> 200 /\
  body_error (Responds (mkResponse 503 (inl (HTTPError "no body")))) = None /\
  logged (snd (get_system_status Sample.platform Sample.guest
                 (Sample.configured Sample.guest))) = [].
Proof.
  destruct (status_failures_are_not_logged Sample.platform Sample.guest
              (Sample.configured Sample.guest)) as (_ & _ & _ & _ & _ & _ & Hst & Hnot).
  split; [reflexivity |]. split; [discriminate |]. split.
  - destruct (Hnot _ (mkResponse 503 (inl (HTTPError "no body"))) eq_refl) as [H _];
      [discriminate | exact H].
  - rewrite Hst. reflexivity.
Defined.
